(** * import-instruments.py: bulk load of the instruments table

    A shallow embedding of [src/import-instruments.py].  The script is one
    procedure, [import_instruments], run by a top-level handler that turns
    the outcome into a process exit status.  The embedding keeps its shape:

    - a CSV row is the dict that [csv.DictReader] yields, a finite map from
      column names to values ([None] for the columns a short line lacks);
    - the SQLite connection is a pair of databases, the committed one and
      the one the open transaction sees; [conn.commit()] copies the second
      onto the first;
    - the procedure runs in a state-and-exception monad over a [world] that
      holds the connection, the clock and the trace of what was printed and
      executed, so that an exception leaves the effects done so far;
    - local variables that Python may find unbound ([batch], [record]) are
      options.

    Python's [float], [int] and [datetime.now], and the order SQLite gives
    to rows that tie in an [ORDER BY], are not part of the script: they are
    the fields of two interfaces, [PyBuiltins] and [SqlOrder].  What SQLite
    does with the values bound to the INSERT is part of the database: an
    integer outside 64 bits is refused, a NaN is stored as NULL. *)

From Stdlib Require Import ZArith Sorting.Sorted.
From stdpp Require Import gmap strings list.

Local Open Scope string_scope.
Local Open Scope list_scope.
Local Open Scope Z_scope.

(** ** Python values and exceptions *)

(** What [csv.DictReader] stores under a column name: the field's text, or
    [None] (its [restval]) when the line has fewer fields than the header. *)
Inductive pyval :=
| PNone
| PStr (s : string).

#[global] Instance pyval_eq_dec : EqDecision pyval.
Proof. solve_decision. Defined.

Inductive exn :=
| FileNotFoundError
| KeyError (key : string)
| ValueError (literal : string)
| TypeError
| UnboundLocalError (var : string)
| ZeroDivisionError
| OverflowError.

#[global] Instance exn_eq_dec : EqDecision exn.
Proof. solve_decision. Defined.

Inductive result (A : Type) :=
| Ok (a : A)
| Raise (e : exn).
Arguments Ok {A} a.
Arguments Raise {A} e.

#[global] Instance result_ret : MRet result := λ A a, Ok a.
#[global] Instance result_bind : MBind result := λ A B f r,
  match r with
  | Ok a => f a
  | Raise e => Raise e
  end.
#[global] Instance result_fmap : FMap result := λ A B f r,
  match r with
  | Ok a => Ok (f a)
  | Raise e => Raise e
  end.

(** The builtins the script calls.  [py_float s] and [py_int s] are [None]
    where [float(s)] and [int(s)] raise [ValueError]; [is_nan x] is
    [math.isnan(x)], true of the float that [float('nan')] returns;
    [isoformat_now k] is what the k-th call of
    [datetime.now().isoformat()] returns. *)
Class PyBuiltins := {
  float : Type;
  py_float : string → option float;
  is_nan : float → bool;
  py_int : string → option Z;
  isoformat_now : nat → string;
}.

(** [bool(v)]: [None] and the empty string are false. *)
Definition truthy (v : pyval) : bool :=
  match v with
  | PNone => false
  | PStr s => negb (bool_decide (s = ""))
  end.

(** [v in ['-1', '']] *)
Definition in_sentinels (v : pyval) : bool :=
  match v with
  | PNone => false
  | PStr s => bool_decide (s = "-1") || bool_decide (s = "")
  end.

(** A value bound to a TEXT column: Python [None] or a [str]. *)
Definition to_text (v : pyval) : option string :=
  match v with
  | PNone => None
  | PStr s => Some s
  end.

(** [row[key]] *)
Definition getitem (row : gmap string pyval) (key : string) : result pyval :=
  match row !! key with
  | Some v => Ok v
  | None => Raise (KeyError key)
  end.

(** ** The transformer: one CSV row to one tuple *)

(** [row[key] if row[key] else None] *)
Definition value_or_none (row : gmap string pyval) (key : string)
  : result (option string) :=
  c ← getitem row key;
  if truthy c then to_text <$> getitem row key else Ok None.

(** [None if row[key] in ['-1', ''] else row[key]] *)
Definition unless_sentinel (row : gmap string pyval) (key : string)
  : result (option string) :=
  c ← getitem row key;
  if in_sentinels c then Ok None else to_text <$> getitem row key.

Section Transform.
Context `{PyBuiltins}.

(** [float(v)] *)
Definition float_of (v : pyval) : result float :=
  match v with
  | PNone => Raise TypeError
  | PStr s =>
      match py_float s with
      | Some x => Ok x
      | None => Raise (ValueError s)
      end
  end.

(** [int(v)] *)
Definition int_of (v : pyval) : result Z :=
  match v with
  | PNone => Raise TypeError
  | PStr s =>
      match py_int s with
      | Some n => Ok n
      | None => Raise (ValueError s)
      end
  end.

(** [None if row[key] in ['-1', ''] else float(row[key]) if row[key] else None] *)
Definition float_or_none (row : gmap string pyval) (key : string)
  : result (option float) :=
  c ← getitem row key;
  if in_sentinels c then Ok None
  else
    t ← getitem row key;
    if truthy t then Some <$> (getitem row key ≫= float_of) else Ok None.

(** [1 if row[key] in ['-1', ''] else int(row[key])] *)
Definition int_or_one (row : gmap string pyval) (key : string) : result Z :=
  c ← getitem row key;
  if in_sentinels c then Ok 1 else getitem row key ≫= int_of.

(** The tuple bound to [record], in the order of the INSERT's columns. *)
Record record := {
  r_symbol : option string;
  r_brsymbol : option string;
  r_name : option string;
  r_exchange : option string;
  r_token : option string;
  r_expiry : option string;
  r_strike : option float;
  r_lotsize : Z;
  r_instrumenttype : option string;
  r_tick_size : option float;
  r_created_at : string;
  r_updated_at : string;
  r_brexchange : option string;
}.
End Transform.

(** ** The database *)

(** A row of [instruments_refresh_log]. *)
Record log_row := {
  lg_exchange : string;
  lg_status : string;
  lg_instrument_count : Z;
  lg_refresh_started_at : string;
  lg_refresh_completed_at : string;
}.

(** The order SQLite gives to the groups of
    [GROUP BY k ORDER BY count DESC]; which of two groups with equal counts
    comes first is the engine's choice. *)
Class SqlOrder := {
  order_by_count_desc : list (option string * Z) → list (option string * Z);
}.

(** What makes it an ORDER BY count DESC: the groups rearranged, the
    counts descending. *)
Class SqlOrderLaws `{SqlOrder} := {
  order_by_count_desc_perm l : order_by_count_desc l ≡ₚ l;
  order_by_count_desc_sorted l :
    Sorted (λ a b, (b.2 <= a.2)%Z) (order_by_count_desc l);
}.

Section Database.
Context `{PyBuiltins}.

(** Modelled from the spec: the schema is not in the script.  The spec
    gives [instruments] the thirteen inserted columns plus an integer
    primary key, [instruments_fts] the columns (symbol, name) keyed by the
    same row identifier, and [instruments_refresh_log] the five logged
    columns.  [instruments_seq] is the AUTOINCREMENT counter of the
    primary key when the schema declares one ([None] when it does not);
    rows are kept in rowid order. *)
Record database := {
  instruments : list (Z * record);
  instruments_seq : option Z;
  instruments_fts : list (Z * (option string * option string));
  instruments_refresh_log : list log_row;
}.

Definition table_ids {A} (t : list (Z * A)) : list Z := t.*1.

(** The rowid SQLite gives to a row inserted without one: one more than
    the largest in the table, and with AUTOINCREMENT one more than the
    largest the table ever held. *)
Definition next_rowid (db : database) : Z :=
  let largest := foldr Z.max 0 (table_ids (instruments db)) in
  match instruments_seq db with
  | Some seq => Z.max seq largest + 1
  | None => largest + 1
  end.

(** A Python int is bound to an SQLite INTEGER only when it fits in 64
    bits; the [sqlite3] module raises [OverflowError] otherwise. *)
Definition fits_int64 (n : Z) : bool :=
  (- 2 ^ 63 <=? n) && (n <? 2 ^ 63).

(** A Python float is bound as an SQLite REAL, except a NaN: SQLite has no
    NaN and stores NULL for it.  [None] is bound as NULL. *)
Definition bind_real (x : option float) : option float :=
  match x with
  | Some v => if is_nan v then None else Some v
  | None => None
  end.

(** The row SQLite stores for a tuple: the text, the integer and the
    timestamps as they are, the two floats as bound. *)
Definition bound (r : record) : record :=
  {| r_symbol := r_symbol r; r_brsymbol := r_brsymbol r; r_name := r_name r;
     r_exchange := r_exchange r; r_token := r_token r;
     r_expiry := r_expiry r; r_strike := bind_real (r_strike r);
     r_lotsize := r_lotsize r; r_instrumenttype := r_instrumenttype r;
     r_tick_size := bind_real (r_tick_size r);
     r_created_at := r_created_at r; r_updated_at := r_updated_at r;
     r_brexchange := r_brexchange r |}.

(** One step of the INSERT INTO instruments (...) VALUES (?, ..., ?). *)
Definition insert_instrument (r : record) (db : database) : result database :=
  if fits_int64 (r_lotsize r) then
    let id := next_rowid db in
    Ok {| instruments := instruments db ++ [(id, bound r)];
          instruments_seq := (λ _, id) <$> instruments_seq db;
          instruments_fts := instruments_fts db;
          instruments_refresh_log := instruments_refresh_log db |}
  else Raise OverflowError.

(** [executemany]: the statement is run for each tuple in turn; a failure
    leaves the rows inserted before it in the open transaction. *)
Fixpoint insert_instruments (batch : list record) (db : database)
  : result unit * database :=
  match batch with
  | [] => (Ok (), db)
  | r :: batch' =>
      match insert_instrument r db with
      | Ok db' => insert_instruments batch' db'
      | Raise e => (Raise e, db)
      end
  end.

(** DELETE FROM instruments *)
Definition delete_instruments (db : database) : database :=
  {| instruments := [];
     instruments_seq := instruments_seq db;
     instruments_fts := instruments_fts db;
     instruments_refresh_log := instruments_refresh_log db |}.

(** DELETE FROM instruments_fts *)
Definition delete_fts (db : database) : database :=
  {| instruments := instruments db;
     instruments_seq := instruments_seq db;
     instruments_fts := [];
     instruments_refresh_log := instruments_refresh_log db |}.

(** SELECT id, symbol, name FROM instruments *)
Definition fts_projection (db : database)
  : list (Z * (option string * option string)) :=
  (λ row, (row.1, (r_symbol row.2, r_name row.2))) <$> instruments db.

(** INSERT INTO instruments_fts(rowid, symbol, name) SELECT ... *)
Definition rebuild_fts (db : database) : database :=
  {| instruments := instruments db;
     instruments_seq := instruments_seq db;
     instruments_fts := instruments_fts db ++ fts_projection db;
     instruments_refresh_log := instruments_refresh_log db |}.

(** INSERT INTO instruments_refresh_log (...) VALUES (?, 'completed', ?, ?, ?) *)
Definition insert_refresh_log (exchange : string) (count : Z)
    (started completed : string) (db : database) : database :=
  {| instruments := instruments db;
     instruments_seq := instruments_seq db;
     instruments_fts := instruments_fts db;
     instruments_refresh_log :=
       instruments_refresh_log db ++
         [{| lg_exchange := exchange;
             lg_status := "completed";
             lg_instrument_count := count;
             lg_refresh_started_at := started;
             lg_refresh_completed_at := completed |}] |}.

(** SELECT COUNT( * ) FROM t *)
Definition count_rows {A} (t : list A) : Z := Z.of_nat (length t).

(** SELECT symbol, name, exchange, instrumenttype FROM instruments LIMIT 5 *)
Definition select_sample (db : database)
  : list (option string * option string * option string * option string) :=
  (λ row, (r_symbol row.2, r_name row.2, r_exchange row.2,
           r_instrumenttype row.2)) <$> take 5 (instruments db).

(** GROUP BY key with COUNT( * ): one pair per distinct key. *)
Definition group_count (keys : list (option string))
  : list (option string * Z) :=
  (λ k, (k, count_rows (filter (k =.) keys))) <$> remove_dups keys.
End Database.

(** ** The world the script runs in *)

(** The compiled-in paths. *)
Definition CSV_FILE : string := "/Users/jnt/GitHub/Simplifyed/oasymbols.csv".
Definition DB_FILE : string :=
  "/Users/jnt/GitHub/Simplifyed/backend/database/simplifyed.db".

(** A line written by [print]: the fixed ones as text, the formatted ones
    with the values they interpolate. *)
Inductive line :=
| Text (s : string)
| ReadingCsv (path : string)
| TotalRecords (total_rows : Z)
| CommittedBatch (inserted : Z)
| Processing (i total_rows : Z)
| CommittedFinalBatch (inserted : Z)
| TotalInDatabase (count : Z)
| FtsRecords (fts_count : Z)
| SampleRow (symbol name exchange : string) (instrumenttype : option string)
| CountRow (key : string) (count : Z)
| TotalInstruments (count : Z)
| TotalFts (fts_count : Z).

(** What reaches the error stream from the top-level handler. *)
Inductive errline :=
| ImportFailed (e : exn)
| Traceback (e : exn).

Section World.
Context `{PyBuiltins}.

(** The SQL the cursor is given. *)
Inductive statement :=
| DeleteInstruments
| InsertInstruments (batch : list record)
| CountInstruments
| DeleteFts
| RebuildFts
| CountFts
| InsertRefreshLog (exchange : string) (count : Z) (started completed : string)
| SelectSample
| SelectByExchange
| SelectByType.

Inductive event :=
| Print (l : line)
| Execute (q : statement)
| Commit.

(** [disk] is the database file as committed; [view] is what the
    connection sees, with the changes of its open transaction; [trace]
    lists what was printed, executed and committed, oldest first; [clock]
    counts the calls of [datetime.now()]. *)
Record world := {
  disk : database;
  view : database;
  trace : list event;
  clock : nat;
}.

(** A computation that may change the world and may raise. *)
Definition M (A : Type) : Type := world → result A * world.

#[global] Instance M_ret : MRet M := λ A a w, (Ok a, w).
#[global] Instance M_bind : MBind M := λ A B f m w,
  match m w with
  | (Ok a, w') => f a w'
  | (Raise e, w') => (Raise e, w')
  end.

Definition raise {A} (e : exn) : M A := λ w, (Raise e, w).

Definition lift {A} (r : result A) : M A := λ w, (r, w).

Definition emit (ev : event) : M unit := λ w,
  (Ok (), {| disk := disk w; view := view w;
             trace := trace w ++ [ev]; clock := clock w |}).

Definition print (l : line) : M unit := emit (Print l).

(** [datetime.now().isoformat()] *)
Definition now_isoformat : M string := λ w,
  (Ok (isoformat_now (clock w)),
   {| disk := disk w; view := view w;
      trace := trace w; clock := S (clock w) |}).

(** [sqlite3.connect(DB_FILE)]: the connection starts from the file. *)
Definition connect : M unit := λ w,
  (Ok (), {| disk := disk w; view := disk w;
             trace := trace w; clock := clock w |}).

(** [conn.commit()] *)
Definition commit : M unit := λ w,
  (Ok (), {| disk := view w; view := view w;
             trace := trace w ++ [Commit]; clock := clock w |}).

(** [conn.close()]: what was not committed is rolled back. *)
Definition close : M unit := λ w,
  (Ok (), {| disk := disk w; view := disk w;
             trace := trace w; clock := clock w |}).

(** [cursor.execute] of a statement that changes the database. *)
Definition execute_update (q : statement) (f : database → database)
  : M unit := λ w,
  (Ok (), {| disk := disk w; view := f (view w);
             trace := trace w ++ [Execute q]; clock := clock w |}).

(** [cursor.execute] of a SELECT, with what [fetchone]/[fetchall] gives. *)
Definition execute_query {A} (q : statement) (f : database → A)
  : M A := λ w,
  (Ok (f (view w)),
   {| disk := disk w; view := view w;
      trace := trace w ++ [Execute q]; clock := clock w |}).

(** [cursor.executemany(sql, batch)] *)
Definition executemany (batch : list record) : M unit := λ w,
  let '(r, db) := insert_instruments batch (view w) in
  (r, {| disk := disk w; view := db;
         trace := trace w ++ [Execute (InsertInstruments batch)];
         clock := clock w |}).

(** [for i, x in enumerate(xs): s = body(i, x, s)], counting from [i]. *)
Fixpoint for_enumerate {A S} (body : Z → A → S → M S)
    (i : Z) (xs : list A) (s : S) : M S :=
  match xs with
  | [] => mret s
  | x :: xs' => s' ← body i x s; for_enumerate body (i + 1) xs' s'
  end.

(** [for x in xs: body(x)] *)
Fixpoint for_each {A} (body : A → M unit) (xs : list A) : M unit :=
  match xs with
  | [] => mret ()
  | x :: xs' => body x;; for_each body xs'
  end.
End World.

(** ** The script *)

Definition batch_size : Z := 1000.

(** The newline that ends some of the printed strings. *)
Definition nl : string := String (Ascii.ascii_of_nat 10) EmptyString.

(** ["=" * 70] and ["-" * 70] *)
Definition rule (c : string) : string :=
  foldr String.append "" (replicate 70 c).

Section Script.
Context `{PyBuiltins} `{SqlOrder}.

(** The loop's local variables; [None] is a name not yet bound. *)
Record locals := {
  l_batch : option (list record);
  l_record : option record;
  l_inserted : Z;
}.

(** Lines 57-71: the tuple's expressions, evaluated left to right. *)
Definition make_record (row : gmap string pyval) : M record :=
  symbol ← lift (value_or_none row "symbol");
  brsymbol ← lift (value_or_none row "brsymbol");
  name ← lift (value_or_none row "name");
  exchange ← lift (value_or_none row "exchange");
  token ← lift (value_or_none row "token");
  expiry ← lift (unless_sentinel row "expiry");
  strike ← lift (float_or_none row "strike");
  lotsize ← lift (int_or_one row "lotsize");
  instrumenttype ← lift (value_or_none row "instrumenttype");
  tick_size ← lift (float_or_none row "tick_size");
  created_at ← now_isoformat;
  updated_at ← now_isoformat;
  brexchange ← lift (value_or_none row "brexchange");
  mret {| r_symbol := symbol; r_brsymbol := brsymbol; r_name := name;
          r_exchange := exchange; r_token := token; r_expiry := expiry;
          r_strike := strike; r_lotsize := lotsize;
          r_instrumenttype := instrumenttype; r_tick_size := tick_size;
          r_created_at := created_at; r_updated_at := updated_at;
          r_brexchange := brexchange |}.

(** Lines 45-74: the body of [for i, row in enumerate(reader)]. *)
Definition loop_body (total_rows : Z) (i : Z) (row : gmap string pyval)
    (l : locals) : M locals :=
  l' ← (if bool_decide (i `mod` batch_size = 0) then
          (if bool_decide (0 < i) then
             commit;;
             print (CommittedBatch (l_inserted l))
           else mret ());;
          (if bool_decide (total_rows = 0) then raise ZeroDivisionError
           else mret ());;
          print (Processing i total_rows);;
          mret {| l_batch := Some []; l_record := l_record l;
                  l_inserted := l_inserted l |}
        else mret l);
  r ← make_record row;
  b ← match l_batch l' with
      | Some b => mret b
      | None => raise (UnboundLocalError "batch")
      end;
  mret {| l_batch := Some (b ++ [r]); l_record := Some r;
          l_inserted := l_inserted l' + 1 |}.

(** Lines 76-87: [if batch: ... executemany ... commit]. *)
Definition commit_final_batch (l : locals) : M unit :=
  match l_batch l with
  | None => raise (UnboundLocalError "batch")
  | Some [] => mret ()
  | Some batch =>
      match l_record l with
      | None => raise (UnboundLocalError "record")
      | Some _ =>
          executemany batch;;
          commit;;
          print (CommittedFinalBatch (l_inserted l))
      end
  end.

(** Lines 28-87.  [csv_file] is what is at [CSV_FILE]: [None] when there
    is no such file, else the dicts [csv.DictReader] yields for it, which
    both passes over the file see. *)
Definition read_and_import (csv_file : option (list (gmap string pyval)))
  : M unit :=
  print (ReadingCsv CSV_FILE);;
  reader ← match csv_file with
           | Some rows => mret rows
           | None => raise FileNotFoundError
           end;
  let total_rows := Z.of_nat (length reader) in
  print (TotalRecords total_rows);;
  print (Text "");;
  l ← for_enumerate (loop_body total_rows) 0 reader
        {| l_batch := None; l_record := None; l_inserted := 0 |};
  commit_final_batch l.

(** Lines 22-26. *)
Definition clear_instruments : M unit :=
  print (Text "Clearing existing instruments...");;
  execute_update DeleteInstruments delete_instruments;;
  commit;;
  print (Text ("✓ Existing instruments cleared" +:+ nl)).

(** Lines 89-92. *)
Definition verify_import : M Z :=
  count ← execute_query CountInstruments (λ db, count_rows (instruments db));
  print (TotalInDatabase count);;
  mret count.

(** Lines 94-105. *)
Definition rebuild_fts_table : M Z :=
  print (Text "Rebuilding FTS table...");;
  execute_update DeleteFts delete_fts;;
  execute_update RebuildFts rebuild_fts;;
  commit;;
  fts_count ← execute_query CountFts (λ db, count_rows (instruments_fts db));
  print (FtsRecords fts_count);;
  mret fts_count.

(** Lines 107-115. *)
Definition update_refresh_log (count : Z) : M unit :=
  started ← now_isoformat;
  completed ← now_isoformat;
  execute_update (InsertRefreshLog "CSV_UPLOAD" count started completed)
    (insert_refresh_log "CSV_UPLOAD" count started completed);;
  commit;;
  print (Text ("✓ Refresh log updated" +:+ nl)).

(** [f"{v:20s}"] and its like: the [s] format of a [str]; [None] has no
    such format and raises [TypeError]. *)
Definition format_s (v : option string) : M string :=
  match v with
  | Some s => mret s
  | None => raise TypeError
  end.

(** Lines 117-123. *)
Definition show_sample : M unit :=
  print (Text "Sample instruments:");;
  print (Text (rule "-"));;
  rows ← execute_query SelectSample select_sample;
  for_each (λ row : option string * option string * option string
                    * option string,
              symbol ← format_s row.1.1.1;
              name ← format_s row.1.1.2;
              exchange ← format_s row.1.2;
              print (SampleRow symbol name exchange row.2)) rows;;
  print (Text "").

(** SELECT exchange, COUNT( * ) ... GROUP BY exchange
    ORDER BY count DESC LIMIT 10 *)
Definition select_by_exchange (db : database) : list (option string * Z) :=
  take 10 (order_by_count_desc
             (group_count ((λ row, r_exchange row.2) <$> instruments db))).

(** SELECT instrumenttype, COUNT( * ) ... GROUP BY instrumenttype
    ORDER BY count DESC *)
Definition select_by_type (db : database) : list (option string * Z) :=
  order_by_count_desc
    (group_count ((λ row, r_instrumenttype row.2) <$> instruments db)).

Definition print_count_row (row : option string * Z) : M unit :=
  key ← format_s row.1;
  print (CountRow key row.2).

(** Lines 125-137. *)
Definition show_by_exchange : M unit :=
  print (Text "Instruments by exchange (top 10):");;
  print (Text (rule "-"));;
  rows ← execute_query SelectByExchange select_by_exchange;
  for_each print_count_row rows;;
  print (Text "").

(** Lines 139-150. *)
Definition show_by_type : M unit :=
  print (Text "Instruments by type:");;
  print (Text (rule "-"));;
  rows ← execute_query SelectByType select_by_type;
  for_each print_count_row rows;;
  print (Text "").

(** Lines 12-115: everything up to and including the refresh log. *)
Definition import_and_log (csv_file : option (list (gmap string pyval)))
  : M (Z * Z) :=
  print (Text (rule "="));;
  print (Text "Starting instruments import from CSV...");;
  print (Text (rule "="));;
  print (Text "");;
  connect;;
  clear_instruments;;
  read_and_import csv_file;;
  count ← verify_import;
  fts_count ← rebuild_fts_table;
  update_refresh_log count;;
  mret (count, fts_count).

(** Lines 152-165. *)
Definition close_and_finish (count fts_count : Z) : M unit :=
  close;;
  print (Text (rule "="));;
  print (Text "✅ INSTRUMENTS IMPORT COMPLETED SUCCESSFULLY!");;
  print (Text (rule "="));;
  print (Text "");;
  print (TotalInstruments count);;
  print (TotalFts fts_count);;
  print (Text "");;
  print (Text "🎉 Instruments cache is now populated!");;
  print (Text "   Fast symbol search is now available.");;
  print (Text "").

(** Lines 117-165: the report and the end of the procedure. *)
Definition report_and_close (count fts_count : Z) : M unit :=
  show_sample;;
  show_by_exchange;;
  show_by_type;;
  close_and_finish count fts_count.

Definition import_instruments (csv_file : option (list (gmap string pyval)))
  : M unit :=
  counts ← import_and_log csv_file;
  report_and_close counts.1 counts.2.

(** The process starts with the database file [db] and the clock at [t]. *)
Definition start (db : database) (t : nat) : world :=
  {| disk := db; view := db; trace := []; clock := t |}.

(** Lines 167-175: the exit status, what is written to the error stream,
    and the world the process leaves.  [sys.exit(0)] raises [SystemExit],
    which [except Exception] does not catch. *)
Definition main (csv_file : option (list (gmap string pyval))) (w : world)
  : Z * list errline * world :=
  match import_instruments csv_file w with
  | (Ok _, w') => (0, [], w')
  | (Raise e, w') => (1, [ImportFailed e; Traceback e], w')
  end.
End Script.

(** ** The vocabulary of the properties *)

Section Vocabulary.
Context `{PyBuiltins} `{SqlOrder}.

(** The world after two readings of the clock. *)
Definition ticked (w : world) : world :=
  {| disk := disk w; view := view w; trace := trace w;
     clock := S (S (clock w)) |}.

(** A numeric column that the transformer accepts: a sentinel, or text the
    parser accepts; [None] is accepted only where [or_none] says so. *)
Definition numeric_ok {A} (parse : string → option A) (or_none : bool)
    (cell : option pyval) : Prop :=
  match cell with
  | Some (PStr s) => s = "-1" ∨ s = "" ∨ is_Some (parse s)
  | Some PNone => or_none = true
  | None => False
  end.

(** The spec's rule for [strike] and [tick_size], between the text [s] of
    the field and the value the tuple holds. *)
Definition float_rule (s : string) (stored : option float) : Prop :=
  (s = "-1" ∨ s = "" → stored = None) ∧
  (s ≠ "-1" → s ≠ "" → ∃ x, py_float s = Some x ∧ stored = Some x).

(** The rule for the value SQLite stores in [strike] and [tick_size]:
    the spec's, but for a field that parses to a NaN, which is stored as
    NULL. *)
Definition stored_float_rule (s : string) (stored : option float) : Prop :=
  (s = "-1" ∨ s = "" → stored = None) ∧
  (s ≠ "-1" → s ≠ "" →
   ∃ x, py_float s = Some x ∧ stored = if is_nan x then None else Some x).

(** The spec's rule for [lotsize]. *)
Definition lotsize_rule (s : string) (stored : Z) : Prop :=
  (s = "-1" ∨ s = "" → stored = 1) ∧
  (s ≠ "-1" → s ≠ "" → py_int s = Some stored).

(** [r] is the tuple the transformer makes of [row], at some reading of
    the clock. *)
Definition transforms (row : gmap string pyval) (r : record) : Prop :=
  ∃ w, make_record row w = (Ok r, ticked w).

(** A row with a numeric field that is neither a sentinel nor text the
    parser accepts. *)
Definition malformed_numeric (row : gmap string pyval) : Prop :=
  (∃ s, row !! "strike" = Some (PStr s) ∧ s ≠ "-1" ∧ s ≠ "" ∧
        py_float s = None) ∨
  (∃ s, row !! "lotsize" = Some (PStr s) ∧ s ≠ "-1" ∧ s ≠ "" ∧
        py_int s = None) ∨
  (∃ s, row !! "tick_size" = Some (PStr s) ∧ s ≠ "-1" ∧ s ≠ "" ∧
        py_float s = None).

(** Where the last batch starts among the first [k] tuples. *)
Definition batch_start (k : Z) : nat :=
  Z.to_nat (batch_size * ((k - 1) `div` batch_size)).

(** The last batch of a list of tuples. *)
Definition last_batch (rs : list record) : list record :=
  drop (batch_start (Z.of_nat (length rs))) rs.

(** The loop's variables after [i] rows: [done] are the tuples made so
    far, the last batch of them is in [batch]. *)
Definition loop_state (done : list record) (l : locals) : Prop :=
  l_inserted l = Z.of_nat (length done) ∧
  match done with
  | [] => l_batch l = None ∧ l_record l = None
  | _ => l_batch l = Some (drop (batch_start (Z.of_nat (length done))) done) ∧
         l_record l = last done
  end.

(** The rows [executemany] appends: the batch in order, under consecutive
    rowids from [first]. *)
Definition numbered (first : Z) (batch : list record) : list (Z * record) :=
  imap (λ k r, (first + Z.of_nat k, r)) batch.

(** The database a run leaves when the table holds [db]'s rows: the index
    rebuilt from them and one row added to the log. *)
Definition logged (db : database) (t : nat) : database :=
  insert_refresh_log "CSV_UPLOAD" (count_rows (instruments db))
    (isoformat_now t) (isoformat_now (S t)) (rebuild_fts (delete_fts db)).

(** The row a run adds to the log. *)
Definition log_entry (count : Z) (started completed : string) : log_row :=
  {| lg_exchange := "CSV_UPLOAD"; lg_status := "completed";
     lg_instrument_count := count; lg_refresh_started_at := started;
     lg_refresh_completed_at := completed |}.

(** A tuple without its two timestamps. *)
Definition untimed (r : record) : record :=
  {| r_symbol := r_symbol r; r_brsymbol := r_brsymbol r; r_name := r_name r;
     r_exchange := r_exchange r; r_token := r_token r;
     r_expiry := r_expiry r; r_strike := r_strike r;
     r_lotsize := r_lotsize r; r_instrumenttype := r_instrumenttype r;
     r_tick_size := r_tick_size r; r_created_at := ""; r_updated_at := "";
     r_brexchange := r_brexchange r |}.

(** The rows of the table without rowids and timestamps. *)
Definition table_data (db : database) : list record :=
  (λ row, untimed row.2) <$> instruments db.

(** The statements that rebuild the search index. *)
Definition touches_fts (ev : event) : bool :=
  match ev with
  | Execute DeleteFts | Execute RebuildFts => true
  | _ => false
  end.

(** The statement that inserts into [instruments]. *)
Definition inserts_instruments (ev : event) : bool :=
  match ev with
  | Execute (InsertInstruments _) => true
  | _ => false
  end.

(** The events of reading: a line printed or a SELECT. *)
Definition reads_only (ev : event) : bool :=
  match ev with
  | Print _ => true
  | Execute (CountInstruments | CountFts | SelectSample | SelectByExchange
             | SelectByType) => true
  | _ => false
  end.

(** A relation between the world before and the world after that every
    step of a computation keeps, whether it returns or raises. *)
Definition keeps (R : relation world) {A} (m : M A) : Prop :=
  ∀ w, R w (m w).2.

(** The trace only grows, by events that satisfy [P]. *)
Definition emits (P : event → bool) (w w' : world) : Prop :=
  ∃ evs, trace w' = trace w ++ evs ∧ Forall (λ ev, P ev = true) evs.

(** What the loop keeps: the connection's view of the database, and with
    it the agreement of the file with that view. *)
Definition loop_frame (w w' : world) : Prop :=
  view w' = view w ∧ (disk w = view w → disk w' = view w').

(** What the report keeps: the file, and the agreement of the
    connection's view with it. *)
Definition report_frame (w w' : world) : Prop :=
  disk w' = disk w ∧ (view w = disk w → view w' = disk w').

(** A computation that only checks: it leaves the database alone, raises
    [e] when [bad] holds, and returns otherwise. *)
Definition checks (e : exn) (bad : Prop) (m : M unit) (w : world) : Prop :=
  ∃ w', view w' = view w ∧ disk w' = disk w ∧
    ((bad ∧ m w = (Raise e, w')) ∨ (¬ bad ∧ m w = (Ok (), w'))).

(** A computation that never raises. *)
Definition returns {A} (m : M A) : Prop := ∀ w, ∃ a w', m w = (Ok a, w').

(** A row of the sample with a null under a [:20s], [:40s] or [:10s]. *)
Definition null_in_sample
    (row : option string * option string * option string * option string)
  : Prop :=
  row.1.1.1 = None ∨ row.1.1.2 = None ∨ row.1.2 = None.

(** What makes the report raise: a null among the formatted columns of
    the five sampled rows, a null key among the groups the exchange query
    returns, or a null key among the groups of the type query. *)
Definition sample_null (db : database) : Prop :=
  Exists null_in_sample (select_sample db).

Definition exchange_null (db : database) : Prop :=
  Exists (λ row, row.1 = None) (select_by_exchange db).

Definition type_null (db : database) : Prop :=
  Exists (λ row, row.1 = None) (select_by_type db).

Definition report_null (db : database) : Prop :=
  sample_null db ∨ exchange_null db ∨ type_null db.

(** The columns the transformer reads, in the order it reads them. *)
Definition columns : list string :=
  ["symbol"; "brsymbol"; "name"; "exchange"; "token"; "expiry"; "strike";
   "lotsize"; "instrumenttype"; "tick_size"; "brexchange"].

(** What a text column holds for a cell of the file: null for an empty
    field and for a field the line lacks, else the text. *)
Definition text_rule (cell : option pyval) (stored : option string) : Prop :=
  match cell with
  | Some (PStr s) => stored = if bool_decide (s = "") then None else Some s
  | Some PNone => stored = None
  | None => False
  end.

(** What [expiry] holds: null for [-1] too. *)
Definition expiry_rule (cell : option pyval) (stored : option string) : Prop :=
  match cell with
  | Some (PStr s) =>
      stored = if bool_decide (s = "-1" ∨ s = "") then None else Some s
  | Some PNone => stored = None
  | None => False
  end.

(** A row the transformer accepts: the eleven columns are there, [lotsize]
    is text, and the numeric columns are sentinels or parse. *)
Definition acceptable (row : gmap string pyval) : Prop :=
  (∀ key, key ∈ ["symbol"; "brsymbol"; "name"; "exchange"; "token";
                 "instrumenttype"; "brexchange"; "expiry"] →
          is_Some (row !! key)) ∧
  numeric_ok py_float true (row !! "strike") ∧
  numeric_ok py_int false (row !! "lotsize") ∧
  numeric_ok py_float true (row !! "tick_size").
(** The [lotsize] of the row, if it makes one, can be bound to an SQLite
    INTEGER. *)
Definition lotsize_fits (row : gmap string pyval) : Prop :=
  ∀ n, int_or_one row "lotsize" = Ok n → fits_int64 n = true.

(** What the loop adds to the trace for [n] rows from index [i]: at every
    multiple of the batch size, except 0, a commit and its line, and at
    every multiple the progress line. *)
Fixpoint loop_events (total i : Z) (n : nat) : list event :=
  match n with
  | O => []
  | S n' =>
      (if bool_decide (i `mod` batch_size = 0) then
         (if bool_decide (0 < i) then [Commit; Print (CommittedBatch i)]
          else []) ++ [Print (Processing i total)]
       else []) ++ loop_events total (i + 1) n'
  end.

End Vocabulary.

(** ** A concrete environment

    To run the script on concrete files: decimal literals for [int] and
    [float], with [nan] for the NaN, a counter for the clock, insertion sort
    for ORDER BY. *)
Module Sample.

(** The place of [c] in [s], counting from [i]. *)
Fixpoint index_from (c : Ascii.ascii) (s : string) (i : Z) : option Z :=
  match s with
  | EmptyString => None
  | String d s' => if Ascii.eqb c d then Some i else index_from c s' (i + 1)
  end.

Definition digit (c : Ascii.ascii) : option Z := index_from c "0123456789" 0.

Fixpoint digits (s : string) (acc : Z) : option Z :=
  match s with
  | EmptyString => Some acc
  | String c s' => d ← digit c; digits s' (10 * acc + d)
  end.

(** An optional sign and at least one digit. *)
Definition parse_int (s : string) : option Z :=
  let negative := bool_decide (String.substring 0 1 s = "-") in
  let body :=
    if negative then String.substring 1 (Nat.pred (String.length s)) s
    else s in
  if bool_decide (body = "") then None
  else (if negative then Z.opp else id) <$> digits body 0.

(** A decimal literal [m] or [m.d]: the digits read as one integer,
    paired with the number of digits after the point. *)
Definition parse_decimal (s : string) : option (Z * nat) :=
  match String.index 0 "." s with
  | None => (λ m, (m, 0%nat)) <$> parse_int s
  | Some k =>
      let frac := String.substring (S k) (String.length s) s in
      m ← parse_int (String.substring 0 k s +:+ frac);
      if bool_decide (frac = "") then None else Some (m, String.length frac)
  end.

(** The decimal digits of [n] before [acc]. *)
Fixpoint show_nat_go (fuel n : nat) (acc : string) : string :=
  match fuel with
  | O => acc
  | S fuel' =>
      let acc' := String (Ascii.ascii_of_nat (48 + n `mod` 10)) acc in
      if bool_decide (n `div` 10 = 0)%nat then acc'
      else show_nat_go fuel' (n `div` 10)%nat acc'
  end.

Definition show_nat (n : nat) : string := show_nat_go (S n) n "".

(** The floats of the sample: the decimal [m / 10^d], and the NaN. *)
Inductive number :=
| Decimal (m : Z) (d : nat)
| NaN.

(** A decimal literal, or [nan]. *)
Definition parse_float (s : string) : option number :=
  if bool_decide (s = "nan") then Some NaN
  else (λ p, Decimal p.1 p.2) <$> parse_decimal s.

Definition number_is_nan (x : number) : bool :=
  match x with
  | NaN => true
  | Decimal _ _ => false
  end.

#[global] Instance builtins : PyBuiltins := {|
  float := number;
  py_float := parse_float;
  is_nan := number_is_nan;
  py_int := parse_int;
  isoformat_now k := "T" +:+ show_nat k;
|}.

Fixpoint insert_desc (x : option string * Z) (l : list (option string * Z))
  : list (option string * Z) :=
  match l with
  | [] => [x]
  | y :: l' => if bool_decide (y.2 < x.2) then x :: l else y :: insert_desc x l'
  end.

Definition sort_desc (l : list (option string * Z)) : list (option string * Z) :=
  foldr insert_desc [] l.

#[global] Instance engine : SqlOrder := {| order_by_count_desc := sort_desc |}.

(** A line of the file with all twelve columns. *)
Definition csv_row (symbol exchange expiry strike lotsize instrumenttype
    tick_size : string) : gmap string pyval :=
  list_to_map
    [("id", PStr "1"); ("symbol", PStr symbol); ("brsymbol", PStr symbol);
     ("name", PStr symbol); ("exchange", PStr exchange);
     ("brexchange", PStr exchange); ("token", PStr "42");
     ("expiry", PStr expiry); ("strike", PStr strike);
     ("lotsize", PStr lotsize); ("instrumenttype", PStr instrumenttype);
     ("tick_size", PStr tick_size)].

(** The row of the spec's scenario: [strike=-1], [lotsize=''], [expiry='']. *)
Definition nifty_row : gmap string pyval :=
  csv_row "NIFTY" "NSE" "" "-1" "" "EQ" "0.05".

Definition nifty (created_at updated_at : string) : record :=
  {| r_symbol := Some "NIFTY"; r_brsymbol := Some "NIFTY";
     r_name := Some "NIFTY"; r_exchange := Some "NSE"; r_token := Some "42";
     r_expiry := None; r_strike := None; r_lotsize := 1;
     r_instrumenttype := Some "EQ"; r_tick_size := Some (Decimal 5 2);
     r_created_at := created_at; r_updated_at := updated_at;
     r_brexchange := Some "NSE" |}.

(** An option row: a strike of 100.5 and a lot of 50. *)
Definition option_row : gmap string pyval :=
  csv_row "NIFTY24MAR100CE" "NFO" "28-MAR-24" "100.5" "50" "CE" "0.05".

Definition option_record (created_at updated_at : string) : record :=
  {| r_symbol := Some "NIFTY24MAR100CE"; r_brsymbol := Some "NIFTY24MAR100CE";
     r_name := Some "NIFTY24MAR100CE"; r_exchange := Some "NFO";
     r_token := Some "42"; r_expiry := Some "28-MAR-24";
     r_strike := Some (Decimal 1005 1); r_lotsize := 50;
     r_instrumenttype := Some "CE"; r_tick_size := Some (Decimal 5 2);
     r_created_at := created_at; r_updated_at := updated_at;
     r_brexchange := Some "NFO" |}.

(** A third row: an equity with a lot of 1 given in the file. *)
Definition equity_row : gmap string pyval :=
  csv_row "RELIANCE" "NSE" "-1" "-1" "1" "EQ" "0.05".

(** The file of the spec's scenario: three data rows. *)
Definition three_rows : list (gmap string pyval) :=
  [nifty_row; option_row; equity_row].

(** A row whose strike is not a number. *)
Definition bad_strike_row : gmap string pyval :=
  csv_row "NIFTY24MAR100CE" "NFO" "28-MAR-24" "12abc" "50" "CE" "0.05".

(** A row with empty [symbol], [brsymbol] and [name]. *)
Definition unnamed_row : gmap string pyval :=
  csv_row "" "NSE" "-1" "-1" "1" "EQ" "0.05".

(** Two instruments on each of ten exchanges, then one whose [exchange]
    is empty. *)
Definition eleven_exchanges : list (gmap string pyval) :=
  mjoin ((λ exchange, replicate 2 (csv_row "ACME" exchange "-1" "-1" "1" "EQ"
                                     "0.05"))
         <$> ["NSE"; "BSE"; "NFO"; "BFO"; "MCX"; "CDS"; "BCD"; "NCDEX";
              "NSE_INDEX"; "BSE_INDEX"])
  ++ [csv_row "ACME" "" "-1" "-1" "1" "EQ" "0.05"].

(** A row with an empty [instrumenttype]. *)
Definition untyped_row : gmap string pyval :=
  csv_row "ACME" "NSE" "-1" "-1" "1" "" "0.05".

(** A row whose strike is the text [nan], which [float] accepts. *)
Definition nan_row : gmap string pyval :=
  csv_row "ACME" "NSE" "-1" "nan" "1" "EQ" "0.05".

(** A row whose lot size is 2^63, one more than SQLite's largest
    INTEGER. *)
Definition huge_lot_row : gmap string pyval :=
  csv_row "ACME" "NSE" "-1" "-1" "9223372036854775808" "EQ" "0.05".

(** A database that has been used: rowids up to 41 given out, an index
    entry left behind, one row in the log. *)
Definition used_db : database :=
  {| instruments := [(41, nifty "then" "then")];
     instruments_seq := Some 41;
     instruments_fts := [(7, (Some "OLD", None))];
     instruments_refresh_log :=
       [{| lg_exchange := "CSV_UPLOAD"; lg_status := "completed";
           lg_instrument_count := 1; lg_refresh_started_at := "then";
           lg_refresh_completed_at := "then" |}] |}.

(** A file of 1001 data rows. *)
Definition many_rows : list (gmap string pyval) := replicate 1001 option_row.

Definition empty_db : database :=
  {| instruments := []; instruments_seq := None;
     instruments_fts := []; instruments_refresh_log := [] |}.

End Sample.

(** * Properties *)

(** ** Running computations *)

Section Running.
Context `{PyBuiltins}.

Lemma bind_run {A B} (m : M A) (f : A → M B) w :
  (m ≫= f) w =
    match m w with
    | (Ok a, w') => f a w'
    | (Raise e, w') => (Raise e, w')
    end.
Proof. reflexivity. Qed.

Lemma bind_Ok {A B} (m : M A) (f : A → M B) w b w' :
  (m ≫= f) w = (Ok b, w') ↔ ∃ a w1, m w = (Ok a, w1) ∧ f a w1 = (Ok b, w').
Proof.
  rewrite bind_run. split.
  - destruct (m w) as [[a|e] w1]; [eauto|discriminate].
  - by intros (a & w1 & -> & Hf).
Qed.

Lemma bind_Raise_l {A B} (m : M A) (f : A → M B) w e w' :
  m w = (Raise e, w') → (m ≫= f) w = (Raise e, w').
Proof. intros Hm. by rewrite bind_run, Hm. Qed.

Lemma bind_step {A B} (m : M A) (f : A → M B) w a w1 :
  m w = (Ok a, w1) → (m ≫= f) w = f a w1.
Proof. intros Hm. by rewrite bind_run, Hm. Qed.

Lemma lift_bind {A B} (r : result A) (f : A → M B) w :
  (lift r ≫= f) w =
    match r with
    | Ok a => f a w
    | Raise e => (Raise e, w)
    end.
Proof. rewrite bind_run. by destruct r. Qed.

Lemma now_isoformat_bind {B} (f : string → M B) w :
  (now_isoformat ≫= f) w =
    f (isoformat_now (clock w))
      {| disk := disk w; view := view w; trace := trace w;
         clock := S (clock w) |}.
Proof. reflexivity. Qed.

Section Keeps.
Context (R : relation world) `{!PreOrder R}.

Lemma keeps_ret {A} (a : A) : keeps R (mret a).
Proof. intros w. simpl. reflexivity. Qed.

Lemma keeps_raise {A} e : keeps R (@raise _ A e).
Proof. intros w. simpl. reflexivity. Qed.

Lemma keeps_lift {A} (r : result A) : keeps R (lift r).
Proof. intros w. simpl. reflexivity. Qed.

Lemma keeps_bind {A B} (m : M A) (f : A → M B) :
  keeps R m → (∀ a, keeps R (f a)) → keeps R (m ≫= f).
Proof.
  intros Hm Hf w. rewrite bind_run. specialize (Hm w).
  destruct (m w) as [[a|e] w1]; simpl in *; [|done].
  etrans; [exact Hm|]. apply Hf.
Qed.

Lemma keeps_for_enumerate {A S} (body : Z → A → S → M S) i xs s :
  (∀ i x s, keeps R (body i x s)) → keeps R (for_enumerate body i xs s).
Proof.
  intros Hbody. revert i s.
  induction xs as [|x xs IH]; intros i s; simpl.
  - apply keeps_ret.
  - apply keeps_bind; [apply Hbody|]. intros s'. apply IH.
Qed.

Lemma keeps_for_each {A} (body : A → M unit) xs :
  (∀ x, keeps R (body x)) → keeps R (for_each body xs).
Proof.
  intros Hbody. induction xs as [|x xs IH]; simpl.
  - apply keeps_ret.
  - apply keeps_bind; [apply Hbody|]. intros _. apply IH.
Qed.
End Keeps.
End Running.

(** ** The transformer *)

Section TransformFacts.
Context `{PyBuiltins}.

Lemma getitem_lookup row key v : row !! key = Some v → getitem row key = Ok v.
Proof. intros Hk. unfold getitem. by rewrite Hk. Qed.

Lemma in_sentinels_str s :
  in_sentinels (PStr s) = true ↔ s = "-1" ∨ s = "".
Proof.
  simpl. rewrite orb_true_iff, !bool_decide_eq_true. done.
Qed.

Lemma in_sentinels_str_false s :
  in_sentinels (PStr s) = false ↔ s ≠ "-1" ∧ s ≠ "".
Proof.
  rewrite <-not_true_iff_false, in_sentinels_str. tauto.
Qed.

Lemma truthy_str s : s ≠ "" → truthy (PStr s) = true.
Proof. intros Hs. simpl. by rewrite bool_decide_eq_false_2. Qed.

Lemma float_or_none_sentinel row key s :
  row !! key = Some (PStr s) → s = "-1" ∨ s = "" →
  float_or_none row key = Ok None.
Proof.
  intros Hk Hs. unfold float_or_none. rewrite (getitem_lookup _ _ _ Hk).
  simpl. apply in_sentinels_str in Hs. simpl in Hs. by rewrite Hs.
Qed.

Lemma float_or_none_other row key s :
  row !! key = Some (PStr s) → s ≠ "-1" → s ≠ "" →
  float_or_none row key =
    match py_float s with
    | Some x => Ok (Some x)
    | None => Raise (ValueError s)
    end.
Proof.
  intros Hk Hs1 Hs2. unfold float_or_none. rewrite (getitem_lookup _ _ _ Hk).
  assert (in_sentinels (PStr s) = false) as Hin
    by by apply in_sentinels_str_false.
  cbn [mbind result_bind]. rewrite Hin, (truthy_str _ Hs2).
  simpl. by destruct (py_float s).
Qed.

Lemma float_or_none_none row key :
  row !! key = Some PNone → float_or_none row key = Ok None.
Proof.
  intros Hk. unfold float_or_none. by rewrite (getitem_lookup _ _ _ Hk).
Qed.

Lemma int_or_one_sentinel row key s :
  row !! key = Some (PStr s) → s = "-1" ∨ s = "" → int_or_one row key = Ok 1.
Proof.
  intros Hk Hs. unfold int_or_one. rewrite (getitem_lookup _ _ _ Hk).
  simpl. apply in_sentinels_str in Hs. simpl in Hs. by rewrite Hs.
Qed.

Lemma int_or_one_other row key s :
  row !! key = Some (PStr s) → s ≠ "-1" → s ≠ "" →
  int_or_one row key =
    match py_int s with
    | Some n => Ok n
    | None => Raise (ValueError s)
    end.
Proof.
  intros Hk Hs1 Hs2. unfold int_or_one. rewrite (getitem_lookup _ _ _ Hk).
  assert (in_sentinels (PStr s) = false) as Hin
    by by apply in_sentinels_str_false.
  cbn [mbind result_bind]. by rewrite Hin.
Qed.

Lemma value_or_none_present row key :
  is_Some (row !! key) → ∃ v, value_or_none row key = Ok v.
Proof.
  intros [c Hk]. unfold value_or_none. rewrite (getitem_lookup _ _ _ Hk).
  simpl. destruct (truthy c); eauto.
Qed.

Lemma unless_sentinel_present row key :
  is_Some (row !! key) → ∃ v, unless_sentinel row key = Ok v.
Proof.
  intros [c Hk]. unfold unless_sentinel. rewrite (getitem_lookup _ _ _ Hk).
  simpl. destruct (in_sentinels c); eauto.
Qed.

(** A run of [make_record] that returns has evaluated every expression
    of the tuple and read the clock twice. *)
Lemma make_record_Ok row w r w' :
  make_record row w = (Ok r, w') →
  value_or_none row "symbol" = Ok (r_symbol r) ∧
  value_or_none row "brsymbol" = Ok (r_brsymbol r) ∧
  value_or_none row "name" = Ok (r_name r) ∧
  value_or_none row "exchange" = Ok (r_exchange r) ∧
  value_or_none row "token" = Ok (r_token r) ∧
  unless_sentinel row "expiry" = Ok (r_expiry r) ∧
  float_or_none row "strike" = Ok (r_strike r) ∧
  int_or_one row "lotsize" = Ok (r_lotsize r) ∧
  value_or_none row "instrumenttype" = Ok (r_instrumenttype r) ∧
  float_or_none row "tick_size" = Ok (r_tick_size r) ∧
  r_created_at r = isoformat_now (clock w) ∧
  r_updated_at r = isoformat_now (S (clock w)) ∧
  value_or_none row "brexchange" = Ok (r_brexchange r) ∧
  w' = ticked w.
Proof.
  unfold make_record. rewrite !lift_bind.
  repeat match goal with
  | |- context [lift_bind] => fail
  | |- match ?r with Ok _ => _ | Raise _ => _ end = _ → _ =>
      destruct r; [|discriminate]; rewrite ?lift_bind
  end.
  rewrite !now_isoformat_bind, lift_bind.
  destruct (value_or_none row "brexchange"); [|discriminate].
  intros [= <- <-]. by repeat split.
Qed.

Lemma float_or_none_ok row key :
  numeric_ok py_float true (row !! key) → ∃ v, float_or_none row key = Ok v.
Proof.
  unfold numeric_ok. destruct (row !! key) as [[|s]|] eqn:Hk; [| |done].
  - intros _. rewrite (float_or_none_none _ _ Hk). eauto.
  - destruct (decide (s = "-1" ∨ s = "")) as [Hs|Hs].
    + intros _. rewrite (float_or_none_sentinel _ _ _ Hk Hs). eauto.
    + intros [?|[?|[x Hx]]]; [tauto..|].
      rewrite (float_or_none_other _ _ _ Hk), Hx by tauto. eauto.
Qed.

Lemma int_or_one_ok row key :
  numeric_ok py_int false (row !! key) → ∃ n, int_or_one row key = Ok n.
Proof.
  unfold numeric_ok. destruct (row !! key) as [[|s]|] eqn:Hk; [done| |done].
  destruct (decide (s = "-1" ∨ s = "")) as [Hs|Hs].
  - intros _. rewrite (int_or_one_sentinel _ _ _ Hk Hs). eauto.
  - intros [?|[?|[x Hx]]]; [tauto..|].
    rewrite (int_or_one_other _ _ _ Hk), Hx by tauto. eauto.
Qed.

(** [make_record] returns for every row that has the eleven columns, with
    numeric columns the transformer accepts. *)
Lemma make_record_total row w :
  (∀ key, key ∈ ["symbol"; "brsymbol"; "name"; "exchange"; "token";
                 "instrumenttype"; "brexchange"; "expiry"] →
          is_Some (row !! key)) →
  numeric_ok py_float true (row !! "strike") →
  numeric_ok py_int false (row !! "lotsize") →
  numeric_ok py_float true (row !! "tick_size") →
  ∃ r, make_record row w = (Ok r, ticked w).
Proof.
  intros Hkeys Hstrike Hlot Htick.
  destruct (value_or_none_present row "symbol") as [v1 E1];
    [apply Hkeys; set_solver|].
  destruct (value_or_none_present row "brsymbol") as [v2 E2];
    [apply Hkeys; set_solver|].
  destruct (value_or_none_present row "name") as [v3 E3];
    [apply Hkeys; set_solver|].
  destruct (value_or_none_present row "exchange") as [v4 E4];
    [apply Hkeys; set_solver|].
  destruct (value_or_none_present row "token") as [v5 E5];
    [apply Hkeys; set_solver|].
  destruct (unless_sentinel_present row "expiry") as [v6 E6];
    [apply Hkeys; set_solver|].
  destruct (float_or_none_ok row "strike" Hstrike) as [v7 E7].
  destruct (int_or_one_ok row "lotsize" Hlot) as [v8 E8].
  destruct (value_or_none_present row "instrumenttype") as [v9 E9];
    [apply Hkeys; set_solver|].
  destruct (float_or_none_ok row "tick_size" Htick) as [v10 E10].
  destruct (value_or_none_present row "brexchange") as [v11 E11];
    [apply Hkeys; set_solver|].
  unfold make_record.
  rewrite E1, E2, E3, E4, E5, E6, E7, E8, E9, E10, E11.
  rewrite !lift_bind, !now_isoformat_bind, lift_bind. eauto.
Qed.

Lemma float_or_none_rule row key s stored :
  row !! key = Some (PStr s) → float_or_none row key = Ok stored →
  float_rule s stored.
Proof.
  intros Hk Hv. split.
  - intros Hs. rewrite (float_or_none_sentinel _ _ _ Hk Hs) in Hv. congruence.
  - intros Hs1 Hs2. rewrite (float_or_none_other _ _ _ Hk Hs1 Hs2) in Hv.
    destruct (py_float s) as [x|]; [|discriminate]. exists x. split; congruence.
Qed.

Lemma int_or_one_rule row key s stored :
  row !! key = Some (PStr s) → int_or_one row key = Ok stored →
  lotsize_rule s stored.
Proof.
  intros Hk Hv. split.
  - intros Hs. rewrite (int_or_one_sentinel _ _ _ Hk Hs) in Hv. congruence.
  - intros Hs1 Hs2. rewrite (int_or_one_other _ _ _ Hk Hs1 Hs2) in Hv.
    destruct (py_int s); [congruence|discriminate].
Qed.

(** In the tuple the transformer builds from a row, [strike]
    (respectively [tick_size]) is null when the field is the text [-1] or
    empty, and for any other text it is the float the field parses to. *)
Lemma transform_strike_tick_size row w r w' :
  make_record row w = (Ok r, w') →
  (∀ s, row !! "strike" = Some (PStr s) → float_rule s (r_strike r)) ∧
  (∀ s, row !! "tick_size" = Some (PStr s) → float_rule s (r_tick_size r)).
Proof.
  intros Hr. apply make_record_Ok in Hr.
  destruct Hr as (_ & _ & _ & _ & _ & _ & Hstrike & _ & _ & Htick & _).
  split; intros s Hk; eapply float_or_none_rule; eauto.
Qed.

(** In the tuple the transformer builds from a row, [lotsize] is the
    integer 1 when the field is the text [-1] or empty, and for any other
    text it is the integer the field parses to. *)
Lemma transform_lotsize row w r w' s :
  make_record row w = (Ok r, w') →
  row !! "lotsize" = Some (PStr s) →
  lotsize_rule s (r_lotsize r).
Proof.
  intros Hr Hk. apply make_record_Ok in Hr.
  destruct Hr as (_ & _ & _ & _ & _ & _ & _ & Hlot & _).
  by eapply int_or_one_rule.
Qed.
End TransformFacts.

(** ** The effects of the primitives *)

Section Primitives.
Context `{PyBuiltins}.

Lemma emit_bind {B} ev (f : unit → M B) w :
  (emit ev ≫= f) w =
    f () {| disk := disk w; view := view w; trace := trace w ++ [ev];
            clock := clock w |}.
Proof. reflexivity. Qed.

Lemma print_bind {B} l (f : unit → M B) w :
  (print l ≫= f) w =
    f () {| disk := disk w; view := view w; trace := trace w ++ [Print l];
            clock := clock w |}.
Proof. reflexivity. Qed.

Lemma commit_bind {B} (f : unit → M B) w :
  (commit ≫= f) w =
    f () {| disk := view w; view := view w; trace := trace w ++ [Commit];
            clock := clock w |}.
Proof. reflexivity. Qed.

Lemma connect_bind {B} (f : unit → M B) w :
  (connect ≫= f) w =
    f () {| disk := disk w; view := disk w; trace := trace w;
            clock := clock w |}.
Proof. reflexivity. Qed.

Lemma close_bind {B} (f : unit → M B) w :
  (close ≫= f) w =
    f () {| disk := disk w; view := disk w; trace := trace w;
            clock := clock w |}.
Proof. reflexivity. Qed.

Lemma execute_update_bind {B} q g (f : unit → M B) w :
  (execute_update q g ≫= f) w =
    f () {| disk := disk w; view := g (view w);
            trace := trace w ++ [Execute q]; clock := clock w |}.
Proof. reflexivity. Qed.

Lemma execute_query_bind {A B} q (g : database → A) (f : A → M B) w :
  (execute_query q g ≫= f) w =
    f (g (view w))
      {| disk := disk w; view := view w;
         trace := trace w ++ [Execute q]; clock := clock w |}.
Proof. reflexivity. Qed.

Lemma raise_bind {A B} e (f : A → M B) w : (raise e ≫= f) w = (Raise e, w).
Proof. reflexivity. Qed.

Lemma ret_bind {A B} (a : A) (f : A → M B) w : (mret a ≫= f) w = f a w.
Proof. reflexivity. Qed.

#[global] Instance loop_frame_preorder : PreOrder loop_frame.
Proof.
  split.
  - by intros w.
  - intros w1 w2 w3 [Hv1 Hd1] [Hv2 Hd2]. split; [congruence|].
    intros Hd. apply Hd2. by apply Hd1.
Qed.

Lemma keeps_loop_frame_print l : keeps loop_frame (print l).
Proof. by intros w. Qed.

Lemma keeps_loop_frame_commit : keeps loop_frame commit.
Proof. by intros w. Qed.

Lemma keeps_loop_frame_now : keeps loop_frame now_isoformat.
Proof. by intros w. Qed.
End Primitives.

Section Loop.
Context `{PyBuiltins} `{SqlOrder}.

Lemma keeps_loop_frame_make_record row : keeps loop_frame (make_record row).
Proof.
  unfold make_record.
  repeat first
    [ apply keeps_bind; [apply _| |intros ?]
    | apply keeps_lift; apply _
    | apply keeps_loop_frame_now
    | apply keeps_ret; apply _ ].
Qed.

Lemma keeps_loop_frame_body total i row l :
  keeps loop_frame (loop_body total i row l).
Proof.
  unfold loop_body.
  apply keeps_bind; [apply _| |intros l'].
  { repeat case_bool_decide;
      repeat first
        [ apply keeps_bind; [apply _| |intros ?]
        | apply keeps_loop_frame_commit
        | apply keeps_loop_frame_print
        | apply keeps_raise; apply _
        | apply keeps_ret; apply _ ]. }
  apply keeps_bind; [apply _|apply keeps_loop_frame_make_record|intros r].
  apply keeps_bind; [apply _| |intros b; apply keeps_ret; apply _].
  destruct (l_batch l'); [apply keeps_ret|apply keeps_raise]; apply _.
Qed.

(** The loop inserts nothing: whatever it returns or raises, the
    connection sees the table it saw before the loop, and the file agrees
    with it if it did before. *)
Lemma loop_keeps_view total i rows l w :
  loop_frame w (for_enumerate (loop_body total) i rows l w).2.
Proof.
  apply (keeps_for_enumerate loop_frame). intros. apply keeps_loop_frame_body.
Qed.

Lemma make_record_transforms row w r w' :
  make_record row w = (Ok r, w') → transforms row r.
Proof.
  intros Hr. exists w. pose proof (make_record_Ok _ _ _ _ Hr) as Hf.
  by replace w' with (ticked w) in Hr by (symmetry; apply Hf).
Qed.

(** One iteration that returns: the tuple is appended to [batch], which
    is first emptied when [i] is a multiple of the batch size. *)
Lemma loop_body_Ok total i row l w l' w' :
  loop_body total i row l w = (Ok l', w') →
  ∃ r, transforms row r ∧
    l_record l' = Some r ∧
    l_inserted l' = l_inserted l + 1 ∧
    clock w' = S (S (clock w)) ∧
    ((i `mod` batch_size = 0 ∧ l_batch l' = Some [r]) ∨
     (i `mod` batch_size ≠ 0 ∧
      ∃ b, l_batch l = Some b ∧ l_batch l' = Some (b ++ [r]))).
Proof.
  unfold loop_body. intros Hrun.
  apply bind_Ok in Hrun as (l1 & w1 & Hhead & Hrun).
  apply bind_Ok in Hrun as (r & w2 & Hrec & Hrun).
  apply bind_Ok in Hrun as (b & w3 & Hb & Hrun).
  injection Hrun as <- <-.
  assert (clock w1 = clock w ∧
          ((i `mod` batch_size = 0 ∧ l_batch l1 = Some []) ∨
           (i `mod` batch_size ≠ 0 ∧ l1 = l)) ∧
          l_inserted l1 = l_inserted l) as (Hclock & Hcase & Hins).
  { case_bool_decide as Hi.
    - assert (clock w1 = clock w ∧ l_batch l1 = Some [] ∧
              l_inserted l1 = l_inserted l) as (? & ? & ?); [|by eauto].
      repeat case_bool_decide; try discriminate;
        rewrite ?commit_bind, ?print_bind, ?ret_bind in Hhead;
        by injection Hhead as <- <-.
    - injection Hhead as <- <-. eauto. }
  pose proof (make_record_Ok _ _ _ _ Hrec) as Hf.
  assert (w2 = ticked w1) as -> by apply Hf.
  assert (l_batch l1 = Some b ∧ w3 = ticked w1) as [Hb1 ->].
  { destruct (l_batch l1); [|discriminate]. by injection Hb as <- <-. }
  exists r. split; [by eapply make_record_transforms|].
  simpl. split; [done|]. split; [lia|]. split; [lia|].
  destruct Hcase as [[Hi Hl1]|[Hi ->]].
  - left. rewrite Hl1 in Hb1. by injection Hb1 as <-.
  - right. eauto.
Qed.

Lemma batch_start_multiple (i : Z) :
  0 ≤ i → i `mod` batch_size = 0 → batch_start (i + 1) = Z.to_nat i.
Proof.
  unfold batch_start, batch_size. intros. f_equal.
  Z.div_mod_to_equations. lia.
Qed.

Lemma batch_start_same (i : Z) :
  0 ≤ i → i `mod` batch_size ≠ 0 → batch_start (i + 1) = batch_start i.
Proof.
  unfold batch_start, batch_size. intros. f_equal.
  Z.div_mod_to_equations. lia.
Qed.

Lemma batch_start_le (k : Z) : 1 ≤ k → (batch_start k < Z.to_nat k)%nat.
Proof.
  unfold batch_start, batch_size. intros.
  Z.div_mod_to_equations. lia.
Qed.

Lemma batch_start_small (n : nat) :
  (n ≤ 1000)%nat → batch_start (Z.of_nat n) = 0%nat.
Proof.
  intros Hn. unfold batch_start, batch_size. destruct n as [|n]; [done|].
  assert ((Z.of_nat (S n) - 1) `div` 1000 = 0) as ->; [|done].
  apply Z.div_small. lia.
Qed.

Lemma loop_state_step done l r l' :
  loop_state done l →
  l_record l' = Some r →
  l_inserted l' = l_inserted l + 1 →
  (let i := Z.of_nat (length done) in
   (i `mod` batch_size = 0 ∧ l_batch l' = Some [r]) ∨
   (i `mod` batch_size ≠ 0 ∧
    ∃ b, l_batch l = Some b ∧ l_batch l' = Some (b ++ [r]))) →
  loop_state (done ++ [r]) l'.
Proof.
  intros [Hins Hdone] Hrec Hins' Hcase. split.
  { rewrite length_app. simpl. lia. }
  assert (done ++ [r] ≠ []) as Hne by (by destruct done).
  destruct (done ++ [r]) as [|r0 rest] eqn:Heq; [done|]. rewrite <-Heq.
  rewrite last_snoc. split; [|done].
  rewrite length_app. simpl length.
  replace (Z.of_nat (length done + 1)) with (Z.of_nat (length done) + 1) by lia.
  destruct Hcase as [[Hi ->]|[Hi (b & Hb & ->)]].
  - rewrite batch_start_multiple by lia. rewrite Nat2Z.id.
    by rewrite drop_app_length.
  - rewrite batch_start_same by lia.
    destruct done as [|r1 done1] eqn:Hd; [done|]. rewrite <-Hd in *.
    destruct Hdone as [Hbatch _]. rewrite Hbatch in Hb. injection Hb as <-.
    rewrite drop_app_le; [done|].
    assert (1 ≤ Z.of_nat (length done)) by (rewrite Hd; simpl; lia).
    pose proof (batch_start_le (Z.of_nat (length done))). lia.
Qed.

(** A loop that returns has made a tuple of every row and holds the last
    batch of them. *)
Lemma loop_Ok total rows : ∀ done l w l' w',
  for_enumerate (loop_body total) (Z.of_nat (length done)) rows l w
    = (Ok l', w') →
  loop_state done l →
  ∃ rs, Forall2 transforms rows rs ∧ loop_state (done ++ rs) l' ∧
        clock w' = (clock w + 2 * length rows)%nat.
Proof.
  induction rows as [|row rows IH]; intros done l w l' w' Hrun Hst.
  - injection Hrun as <- <-. exists []. rewrite app_nil_r.
    split; [constructor|]. split; [done|]. simpl. lia.
  - simpl in Hrun. apply bind_Ok in Hrun as (l1 & w1 & Hbody & Hrun).
    apply loop_body_Ok in Hbody as (r & Hr & Hrec & Hins & Hclock & Hcase).
    pose proof (loop_state_step _ _ _ _ Hst Hrec Hins Hcase) as Hst1.
    replace (Z.of_nat (length done) + 1) with (Z.of_nat (length (done ++ [r])))
      in Hrun by (rewrite length_app; simpl; lia).
    destruct (IH _ _ _ _ _ Hrun Hst1) as (rs & Hrs & Hst' & Hclock').
    exists (r :: rs). split; [by constructor|].
    rewrite <-app_assoc in Hst'. split; [done|]. simpl length. lia.
Qed.
End Loop.

(** ** The insert *)

Section Insert.
Context `{PyBuiltins}.

Lemma next_rowid_above db id :
  id ∈ table_ids (instruments db) → id < next_rowid db.
Proof.
  unfold next_rowid.
  assert (∀ ids : list Z, id ∈ ids → id ≤ foldr Z.max 0 ids) as Hmax.
  { induction ids as [|x ids IH]; intros Hin; [by apply elem_of_nil in Hin|].
    apply elem_of_cons in Hin as [->|Hin]; simpl; [lia|].
    specialize (IH Hin). lia. }
  intros Hin%Hmax. destruct (instruments_seq db); lia.
Qed.

Lemma foldr_max_snoc (ids : list Z) (id : Z) :
  foldr Z.max 0 (ids ++ [id]) = Z.max (foldr Z.max 0 ids) (Z.max id 0).
Proof. induction ids as [|x ids IH]; simpl; [lia|]. rewrite IH. lia. Qed.

Lemma next_rowid_positive db : 0 < next_rowid db.
Proof.
  unfold next_rowid.
  assert (∀ ids : list Z, 0 ≤ foldr Z.max 0 ids) as Hmax.
  { induction ids as [|x ids IH]; simpl; lia. }
  specialize (Hmax (table_ids (instruments db))).
  destruct (instruments_seq db); lia.
Qed.

(** One INSERT that succeeds appends the tuple, as bound, under the next
    rowid, and the rowid after it is one more. *)
Lemma insert_instrument_Ok r db db' :
  insert_instrument r db = Ok db' →
  fits_int64 (r_lotsize r) = true ∧
  instruments db' = instruments db ++ [(next_rowid db, bound r)] ∧
  next_rowid db' = next_rowid db + 1 ∧
  instruments_fts db' = instruments_fts db ∧
  instruments_refresh_log db' = instruments_refresh_log db.
Proof.
  unfold insert_instrument. destruct (fits_int64 (r_lotsize r)); [|done].
  intros [= <-]. split; [done|]. simpl. split; [done|]. split; [|done].
  unfold next_rowid, table_ids. simpl. rewrite fmap_app. simpl.
  rewrite foldr_max_snoc.
  assert (∀ ids : list Z, 0 ≤ foldr Z.max 0 ids) as Hmax.
  { induction ids as [|x ids IH]; simpl; lia. }
  specialize (Hmax (instruments db).*1).
  destruct (instruments_seq db); simpl; lia.
Qed.

Lemma numbered_cons first r batch :
  numbered first (r :: batch) = (first, r) :: numbered (first + 1) batch.
Proof.
  unfold numbered. simpl. f_equal; [f_equal; lia|].
  apply imap_ext. intros k x _. simpl. f_equal. lia.
Qed.

Lemma numbered_length first batch : length (numbered first batch) = length batch.
Proof. apply length_imap. Qed.

Lemma numbered_records first batch : (numbered first batch).*2 = batch.
Proof.
  revert first. induction batch as [|r batch IH]; intros first; [done|].
  rewrite numbered_cons. simpl. by rewrite IH.
Qed.

Lemma numbered_ids_above first batch id :
  id ∈ table_ids (numbered first batch) → first ≤ id.
Proof.
  revert first. induction batch as [|r batch IH]; intros first.
  - by intros ?%elem_of_nil.
  - rewrite numbered_cons. unfold table_ids. simpl.
    intros [->|Hin]%elem_of_cons; [lia|]. apply IH in Hin. lia.
Qed.

Lemma numbered_ids_NoDup first batch : NoDup (table_ids (numbered first batch)).
Proof.
  revert first. induction batch as [|r batch IH]; intros first.
  - constructor.
  - rewrite numbered_cons. unfold table_ids. simpl. constructor; [|apply IH].
    intros Hin%numbered_ids_above. lia.
Qed.

Lemma insert_instruments_Ok batch : ∀ db db',
  insert_instruments batch db = (Ok (), db') →
  Forall (λ r, fits_int64 (r_lotsize r) = true) batch ∧
  instruments db' =
    instruments db ++ numbered (next_rowid db) (bound <$> batch) ∧
  instruments_fts db' = instruments_fts db ∧
  instruments_refresh_log db' = instruments_refresh_log db.
Proof.
  induction batch as [|r batch IH]; intros db db' Hrun; simpl in Hrun.
  - injection Hrun as <-. by rewrite app_nil_r.
  - destruct (insert_instrument r db) as [db1|e] eqn:Hone; [|done].
    apply insert_instrument_Ok in Hone as (Hfit & Hrows & Hnext & Hfts & Hlog).
    apply IH in Hrun as (Hfits & Hrows' & Hfts' & Hlog').
    split; [by constructor|].
    rewrite fmap_cons, numbered_cons, Hrows', Hrows, Hnext, <-app_assoc.
    split; [done|]. split; congruence.
Qed.

(** [executemany] succeeds on every batch whose integers fit. *)
Lemma insert_instruments_total batch : ∀ db,
  Forall (λ r, fits_int64 (r_lotsize r) = true) batch →
  ∃ db', insert_instruments batch db = (Ok (), db').
Proof.
  induction batch as [|r batch IH]; intros db Hfits; simpl; [eauto|].
  apply Forall_cons in Hfits as [Hfit Hfits].
  unfold insert_instrument. rewrite Hfit. by apply IH.
Qed.
End Insert.

(** ** The trace *)

Section Trace.
Context `{PyBuiltins}.

#[global] Instance emits_preorder P : PreOrder (emits P).
Proof.
  split.
  - intros w. exists []. by rewrite app_nil_r.
  - intros w1 w2 w3 (evs1 & E1 & H1) (evs2 & E2 & H2).
    exists (evs1 ++ evs2). rewrite E2, E1, app_assoc. split; [done|].
    by apply Forall_app.
Qed.

Lemma keeps_emits_emit P ev : P ev = true → keeps (emits P) (emit ev).
Proof. intros HP w. exists [ev]. split; [done|]. by constructor. Qed.

Lemma keeps_emits_print P l : P (Print l) = true → keeps (emits P) (print l).
Proof. apply keeps_emits_emit. Qed.

Lemma keeps_emits_commit P : P Commit = true → keeps (emits P) commit.
Proof. intros HP w. exists [Commit]. split; [done|]. by constructor. Qed.

Lemma keeps_emits_now P : keeps (emits P) now_isoformat.
Proof. intros w. exists []. simpl. by rewrite app_nil_r. Qed.

Lemma keeps_emits_close P : keeps (emits P) close.
Proof. intros w. exists []. simpl. by rewrite app_nil_r. Qed.

Lemma keeps_emits_query P {A} q (g : database → A) :
  P (Execute q) = true → keeps (emits P) (execute_query q g).
Proof. intros HP w. exists [Execute q]. split; [done|]. by constructor. Qed.

Lemma keeps_emits_executemany P batch :
  P (Execute (InsertInstruments batch)) = true →
  keeps (emits P) (executemany batch).
Proof.
  intros HP w. exists [Execute (InsertInstruments batch)].
  unfold executemany. destruct (insert_instruments batch (view w)).
  split; [done|]. by constructor.
Qed.
End Trace.

Ltac keeps_emits :=
  repeat first
    [ apply keeps_bind; [apply _| |intros ?]
    | apply keeps_for_each; [apply _|intros ?]
    | apply keeps_for_enumerate; [apply _|intros ? ? ?]
    | apply keeps_emits_print; reflexivity
    | apply keeps_emits_commit; reflexivity
    | apply keeps_emits_query; reflexivity
    | apply keeps_emits_executemany; reflexivity
    | apply keeps_emits_now
    | apply keeps_emits_close
    | apply keeps_lift; apply _
    | apply keeps_raise; apply _
    | apply keeps_ret; apply _
    | progress case_bool_decide
    | match goal with
      | |- keeps _ (match ?x with _ => _ end) => destruct x
      end ].

Section TraceOfPhases.
Context `{PyBuiltins} `{SqlOrder}.

Lemma read_and_import_emits csv :
  keeps (emits (λ ev, negb (touches_fts ev))) (read_and_import csv).
Proof.
  unfold read_and_import, commit_final_batch, loop_body, make_record.
  keeps_emits.
Qed.

Lemma report_and_close_emits count fts_count :
  keeps (emits reads_only) (report_and_close count fts_count).
Proof.
  unfold report_and_close, close_and_finish, show_sample, show_by_exchange,
    show_by_type, print_count_row, format_s.
  keeps_emits.
Qed.
End TraceOfPhases.

(** ** The phases of a run *)

Section Phases.
Context `{PyBuiltins} `{SqlOrder}.

Lemma clear_instruments_run w :
  clear_instruments w =
    (Ok (),
     {| disk := delete_instruments (view w);
        view := delete_instruments (view w);
        trace := trace w ++
          [Print (Text "Clearing existing instruments...");
           Execute DeleteInstruments; Commit;
           Print (Text ("✓ Existing instruments cleared" +:+ nl))];
        clock := clock w |}).
Proof.
  unfold clear_instruments.
  rewrite print_bind, execute_update_bind, commit_bind. unfold print, emit.
  simpl. by rewrite <-!app_assoc.
Qed.

Lemma verify_import_run w :
  verify_import w =
    (Ok (count_rows (instruments (view w))),
     {| disk := disk w; view := view w;
        trace := trace w ++
          [Execute CountInstruments;
           Print (TotalInDatabase (count_rows (instruments (view w))))];
        clock := clock w |}).
Proof.
  unfold verify_import. rewrite execute_query_bind, print_bind.
  simpl. by rewrite <-!app_assoc.
Qed.

Lemma rebuild_fts_table_run w :
  rebuild_fts_table w =
    (Ok (count_rows (instruments_fts (rebuild_fts (delete_fts (view w))))),
     {| disk := rebuild_fts (delete_fts (view w));
        view := rebuild_fts (delete_fts (view w));
        trace := trace w ++
          [Print (Text "Rebuilding FTS table...");
           Execute DeleteFts; Execute RebuildFts; Commit; Execute CountFts;
           Print (FtsRecords
                    (count_rows
                       (instruments_fts (rebuild_fts (delete_fts (view w))))))];
        clock := clock w |}).
Proof.
  unfold rebuild_fts_table.
  rewrite print_bind, !execute_update_bind, commit_bind, execute_query_bind,
    print_bind.
  simpl. by rewrite <-!app_assoc.
Qed.

Lemma update_refresh_log_run count w :
  update_refresh_log count w =
    (Ok (),
     let started := isoformat_now (clock w) in
     let completed := isoformat_now (S (clock w)) in
     let db := insert_refresh_log "CSV_UPLOAD" count started completed (view w) in
     {| disk := db; view := db;
        trace := trace w ++
          [Execute (InsertRefreshLog "CSV_UPLOAD" count started completed);
           Commit; Print (Text ("✓ Refresh log updated" +:+ nl))];
        clock := S (S (clock w)) |}).
Proof.
  unfold update_refresh_log.
  rewrite !now_isoformat_bind, execute_update_bind, commit_bind.
  unfold print, emit. simpl. by rewrite <-!app_assoc.
Qed.

Lemma last_batch_length rs :
  rs ≠ [] →
  Z.of_nat (length (last_batch rs)) =
    (Z.of_nat (length rs) - 1) `mod` batch_size + 1.
Proof.
  intros Hne. unfold last_batch. rewrite length_drop.
  assert (1 ≤ Z.of_nat (length rs)) by (destruct rs; [done|simpl; lia]).
  pose proof (batch_start_le (Z.of_nat (length rs))).
  unfold batch_start, batch_size in *. Z.div_mod_to_equations. lia.
Qed.

Lemma last_batch_nonempty rs : rs ≠ [] → last_batch rs ≠ [].
Proof.
  intros Hne Hnil. pose proof (last_batch_length rs Hne) as Hlen.
  rewrite Hnil in Hlen. unfold batch_size in Hlen. simpl in Hlen.
  Z.div_mod_to_equations. lia.
Qed.

(** What [if batch:] does with the loop's variables. *)
Lemma commit_final_batch_Ok rs l w w' :
  loop_state rs l →
  commit_final_batch l w = (Ok (), w') →
  rs ≠ [] ∧
  ∃ db, insert_instruments (last_batch rs) (view w) = (Ok (), db) ∧
    w' = {| disk := db; view := db;
            trace := trace w ++
              [Execute (InsertInstruments (last_batch rs)); Commit;
               Print (CommittedFinalBatch (Z.of_nat (length rs)))];
            clock := clock w |}.
Proof.
  intros [Hins Hst]. unfold commit_final_batch.
  destruct rs as [|r0 rs0] eqn:Hrs.
  { destruct Hst as [-> _]. discriminate. }
  rewrite <-Hrs in *. assert (rs ≠ []) as Hne by (by rewrite Hrs).
  destruct Hst as [-> ->]. fold (last_batch rs).
  pose proof (last_batch_nonempty rs Hne) as Hb.
  destruct (last_batch rs) as [|b0 bs] eqn:Hbatch; [done|].
  destruct (last rs) as [rl|] eqn:Hlast;
    [|by apply last_None in Hlast].
  rewrite bind_run. unfold executemany.
  destruct (insert_instruments (b0 :: bs) (view w)) as [[[]|e] db] eqn:Hrun;
    [|discriminate].
  rewrite commit_bind. unfold print, emit. simpl.
  intros [= <-]. split; [done|]. exists db. split; [done|].
  by rewrite Hins, <-!app_assoc.
Qed.

(** A load that returns: the file exists and has rows, every row made a
    tuple, and the table received the last batch of them, and only that. *)
Lemma read_and_import_Ok csv_file w w' :
  read_and_import csv_file w = (Ok (), w') →
  ∃ rows rs db evs,
    csv_file = Some rows ∧ rows ≠ [] ∧ Forall2 transforms rows rs ∧
    insert_instruments (last_batch rs) (view w) = (Ok (), db) ∧
    Forall (λ ev, touches_fts ev = false) evs ∧
    w' = {| disk := db; view := db; trace := trace w ++ evs;
            clock := (clock w + 2 * length rows)%nat |}.
Proof.
  intros Hrun.
  destruct (read_and_import_emits csv_file w) as (evs & Htrace & Hevs).
  rewrite Hrun in Htrace. simpl in Htrace.
  unfold read_and_import in Hrun. rewrite print_bind in Hrun.
  destruct csv_file as [rows|]; [|discriminate].
  rewrite ret_bind, !print_bind in Hrun.
  apply bind_Ok in Hrun as (l & w1 & Hloop & Hfinal).
  match type of Hloop with
  | for_enumerate _ _ _ ?l0 ?w0 = _ =>
      pose proof (loop_keeps_view (Z.of_nat (length rows)) 0 rows l0 w0)
        as [Hview _]
  end.
  rewrite Hloop in Hview. simpl in Hview.
  apply (loop_Ok _ _ []) in Hloop as (rs & Hrs & Hst & Hclock);
    [|by split].
  simpl in Hst, Hclock.
  apply (commit_final_batch_Ok rs) in Hfinal as (Hne & db & Hdb & ->);
    [|done].
  rewrite Hview in Hdb. simpl in Htrace.
  exists rows, rs, db, evs. split; [done|].
  split. { intros ->. apply Forall2_nil_inv_l in Hrs. done. }
  split; [done|]. split; [done|].
  split. { eapply Forall_impl; [exact Hevs|]. intros ev. by apply negb_true_iff. }
  by rewrite Htrace, Hclock.
Qed.
End Phases.

Section Run.
Context `{PyBuiltins} `{SqlOrder}.

Lemma rebuild_fts_count db :
  count_rows (instruments_fts (rebuild_fts (delete_fts db)))
  = count_rows (instruments db).
Proof.
  unfold count_rows, rebuild_fts, delete_fts, fts_projection. simpl.
  by rewrite length_fmap.
Qed.

(** The import up to the refresh log, when it returns. *)
Lemma import_and_log_Ok csv_file w counts w1 :
  import_and_log csv_file w = (Ok counts, w1) →
  ∃ rows rs db pre,
    csv_file = Some rows ∧ rows ≠ [] ∧ Forall2 transforms rows rs ∧
    insert_instruments (last_batch rs) (delete_instruments (disk w))
      = (Ok (), db) ∧
    counts = (count_rows (instruments db), count_rows (instruments db)) ∧
    Forall (λ ev, touches_fts ev = false) pre ∧
    w1 = {| disk := logged db (clock w + 2 * length rows);
            view := logged db (clock w + 2 * length rows);
            trace := trace w ++ pre ++
              [Execute DeleteFts; Execute RebuildFts] ++
              [Commit; Execute CountFts;
               Print (FtsRecords (count_rows (instruments db)));
               Execute (InsertRefreshLog "CSV_UPLOAD"
                          (count_rows (instruments db))
                          (isoformat_now (clock w + 2 * length rows))
                          (isoformat_now (S (clock w + 2 * length rows))));
               Commit; Print (Text ("✓ Refresh log updated" +:+ nl))];
            clock := S (S (clock w + 2 * length rows)) |}.
Proof.
  unfold import_and_log. rewrite !print_bind, connect_bind.
  cbn [disk view trace clock].
  rewrite (bind_step _ _ _ _ _ (clear_instruments_run _)).
  cbn [disk view trace clock].
  intros Hrun. apply bind_Ok in Hrun as ([] & w2 & Hload & Hrun).
  apply read_and_import_Ok in Hload
    as (rows & rs & db & evs & -> & Hne & Hrs & Hdb & Hevs & ->).
  cbn [disk view trace clock] in Hdb, Hrun.
  rewrite (bind_step _ _ _ _ _ (verify_import_run _)) in Hrun.
  cbn [disk view trace clock] in Hrun.
  rewrite (bind_step _ _ _ _ _ (rebuild_fts_table_run _)) in Hrun.
  cbn [disk view trace clock] in Hrun.
  rewrite (bind_step _ _ _ _ _ (update_refresh_log_run _ _)) in Hrun.
  cbv zeta in Hrun. cbn [disk view trace clock] in Hrun.
  rewrite rebuild_fts_count in Hrun. injection Hrun as <- <-.
  exists rows, rs, db,
    ([Print (Text (rule "="));
      Print (Text "Starting instruments import from CSV...");
      Print (Text (rule "=")); Print (Text "");
      Print (Text "Clearing existing instruments...");
      Execute DeleteInstruments; Commit;
      Print (Text ("✓ Existing instruments cleared" +:+ nl))] ++ evs ++
     [Execute CountInstruments;
      Print (TotalInDatabase (count_rows (instruments db)));
      Print (Text "Rebuilding FTS table...")]).
  split; [done|]. split; [done|]. split; [done|].
  split; [done|]. split; [done|]. split.
  - repeat (apply Forall_app; split); [|exact Hevs|]; by repeat constructor.
  - unfold logged. f_equal. rewrite <-!app_assoc. simpl. done.
Qed.

#[global] Instance report_frame_preorder : PreOrder report_frame.
Proof.
  split.
  - by intros w.
  - intros w1 w2 w3 [Hd1 Hv1] [Hd2 Hv2]. split; [congruence|].
    intros Hv. apply Hv2. by apply Hv1.
Qed.

Lemma report_and_close_frame count fts_count :
  keeps report_frame (report_and_close count fts_count).
Proof.
  unfold report_and_close, close_and_finish, show_sample, show_by_exchange,
    show_by_type, print_count_row, format_s.
  repeat first
    [ apply keeps_bind; [apply _| |intros ?]
    | apply keeps_for_each; [apply _|intros ?]
    | apply keeps_raise; apply _
    | apply keeps_ret; apply _
    | match goal with
      | |- keeps _ (match ?x with _ => _ end) => destruct x
      end
    | by intros w ].
Qed.

(** A run that returns. *)
Lemma import_instruments_Ok csv_file w w' :
  import_instruments csv_file w = (Ok (), w') →
  ∃ rows rs db pre post,
    csv_file = Some rows ∧ rows ≠ [] ∧ Forall2 transforms rows rs ∧
    insert_instruments (last_batch rs) (delete_instruments (disk w))
      = (Ok (), db) ∧
    disk w' = logged db (clock w + 2 * length rows) ∧
    view w' = disk w' ∧
    trace w' =
      trace w ++ pre ++ [Execute DeleteFts; Execute RebuildFts] ++ post ∧
    Forall (λ ev, touches_fts ev = false) pre ∧
    Forall (λ ev, touches_fts ev = false ∧ inserts_instruments ev = false)
      post.
Proof.
  unfold import_instruments. intros Hrun.
  apply bind_Ok in Hrun as (counts & w1 & Hlog & Hreport).
  pose proof (report_and_close_frame counts.1 counts.2 w1) as [Hdisk Hview].
  destruct (report_and_close_emits counts.1 counts.2 w1) as (evs & Htr & Hevs).
  rewrite Hreport in Hdisk, Hview, Htr. simpl in Hdisk, Hview, Htr.
  apply import_and_log_Ok in Hlog
    as (rows & rs & db & pre & -> & Hne & Hrs & Hdb & -> & Hpre & ->).
  simpl in *. eexists rows, rs, db, pre, _.
  split; [done|]. split; [done|]. split; [done|]. split; [done|].
  split; [done|]. split; [by rewrite Hview|].
  split. { rewrite Htr, <-!app_assoc. simpl. reflexivity. }
  split; [done|].
  repeat (apply Forall_cons; split; [done|]).
  eapply Forall_impl; [exact Hevs|]. by intros [[]|[]|].
Qed.
End Run.

(** ** What a run leaves *)

Section Outcome.
Context `{PyBuiltins} `{SqlOrder}.

Lemma logged_instruments db t : instruments (logged db t) = instruments db.
Proof. reflexivity. Qed.

Lemma logged_fts db t :
  instruments_fts (logged db t) = fts_projection (logged db t).
Proof. reflexivity. Qed.

(** The table after a run that returns: the last batch of the tuples, as
    bound, under consecutive rowids. *)
Lemma import_instruments_table csv_file w w' :
  import_instruments csv_file w = (Ok (), w') →
  ∃ rows rs first,
    csv_file = Some rows ∧ rows ≠ [] ∧ Forall2 transforms rows rs ∧
    instruments (disk w') = numbered first (bound <$> last_batch rs).
Proof.
  intros Hrun. apply import_instruments_Ok in Hrun
    as (rows & rs & db & pre & post & -> & Hne & Hrs & Hdb & Hdisk & _).
  apply insert_instruments_Ok in Hdb as (_ & Hrows & _).
  exists rows, rs, (next_rowid (delete_instruments (disk w))).
  split; [done|]. split; [done|]. split; [done|].
  by rewrite Hdisk, logged_instruments, Hrows.
Qed.

(** COUNT( * ) after a run that returns on [N] rows: the size of the last
    batch, [(N - 1) mod 1000 + 1]. *)
Lemma import_instruments_count rows w w' :
  import_instruments (Some rows) w = (Ok (), w') →
  count_rows (instruments (disk w')) =
    (Z.of_nat (length rows) - 1) `mod` batch_size + 1.
Proof.
  intros Hrun. apply import_instruments_table in Hrun
    as (rows' & rs & first & [= <-] & Hne & Hrs & ->).
  unfold count_rows. rewrite numbered_length, length_fmap.
  rewrite (Forall2_length _ _ _ Hrs). apply last_batch_length.
  intros ->. by apply Forall2_nil_inv_r in Hrs.
Qed.

(** The count is the number of data rows exactly when they fit in one
    batch. *)
Lemma import_instruments_count_rows rows w w' :
  import_instruments (Some rows) w = (Ok (), w') →
  count_rows (instruments (disk w')) = Z.of_nat (length rows) ↔
  (length rows ≤ 1000)%nat.
Proof.
  intros Hrun. rewrite (import_instruments_count _ _ _ Hrun).
  apply import_instruments_table in Hrun
    as (rows' & _ & _ & [= <-] & Hne & _).
  assert (1 ≤ Z.of_nat (length rows)) by (destruct rows; [done|simpl; lia]).
  unfold batch_size. split; intros; Z.div_mod_to_equations; lia.
Qed.

(** C5: a run that returns appends exactly one row to the refresh log:
    exchange [CSV_UPLOAD], status [completed], the final COUNT( * ) of
    [instruments], and two readings of the clock taken when the row is
    written; the rows already in the log stay. *)
Theorem refresh_log_appended csv_file w w' :
  import_instruments csv_file w = (Ok (), w') →
  ∃ rows, csv_file = Some rows ∧
    instruments_refresh_log (disk w') =
      instruments_refresh_log (disk w) ++
        [{| lg_exchange := "CSV_UPLOAD";
            lg_status := "completed";
            lg_instrument_count := count_rows (instruments (disk w'));
            lg_refresh_started_at :=
              isoformat_now (clock w + 2 * length rows);
            lg_refresh_completed_at :=
              isoformat_now (S (clock w + 2 * length rows)) |}].
Proof.
  intros Hrun. apply import_instruments_Ok in Hrun
    as (rows & rs & db & pre & post & -> & Hne & Hrs & Hdb & Hdisk & _).
  apply insert_instruments_Ok in Hdb as (_ & _ & _ & Hlog).
  exists rows. split; [done|]. rewrite Hdisk. unfold logged. simpl.
  by rewrite Hlog.
Qed.

(** C4: after a run that returns, the search index holds, for each row of
    [instruments] and in the same order, the row's id with its [symbol]
    and its [name], and nothing else: the same COUNT( * ), the same row
    identifiers.  In the trace the index is cleared and refilled by two
    consecutive statements, every INSERT into [instruments] comes before
    them, and nothing else touches the index. *)
Theorem fts_rebuilt_after_insert csv_file db t w' :
  import_instruments csv_file (start db t) = (Ok (), w') →
  instruments_fts (disk w') =
    (λ row, (row.1, (r_symbol row.2, r_name row.2)))
      <$> instruments (disk w') ∧
  count_rows (instruments_fts (disk w')) = count_rows (instruments (disk w')) ∧
  (∀ id, id ∈ table_ids (instruments_fts (disk w')) ↔
         id ∈ table_ids (instruments (disk w'))) ∧
  NoDup (table_ids (instruments (disk w'))) ∧
  ∃ pre post,
    trace w' = pre ++ [Execute DeleteFts; Execute RebuildFts] ++ post ∧
    Forall (λ ev, touches_fts ev = false) pre ∧
    Forall (λ ev, touches_fts ev = false ∧ inserts_instruments ev = false)
      post.
Proof.
  intros Hrun. pose proof (import_instruments_table _ _ _ Hrun)
    as (_ & rs0 & first & _ & _ & _ & Htable).
  apply import_instruments_Ok in Hrun
    as (rows & rs & db1 & pre & post & -> & Hne & Hrs & Hdb & Hdisk & _
        & Htrace & Hpre & Hpost).
  assert (instruments_fts (disk w') =
            (λ row, (row.1, (r_symbol row.2, r_name row.2)))
              <$> instruments (disk w')) as Hfts
    by (by rewrite Hdisk).
  assert (table_ids (instruments_fts (disk w'))
          = table_ids (instruments (disk w'))) as Hids.
  { rewrite Hfts. unfold table_ids.
    rewrite <-list_fmap_compose. by apply list_fmap_ext. }
  split; [done|]. split.
  { rewrite Hfts. unfold count_rows. by rewrite length_fmap. }
  split; [by rewrite Hids|].
  split; [rewrite Htable; apply numbered_ids_NoDup|].
  exists pre, post. by rewrite Htrace.
Qed.

End Outcome.

(** ** Failures *)

Section Failures.
Context `{PyBuiltins} `{SqlOrder}.

(** The transformer raises on such a row: the conversion failure, unless
    an expression before it in the tuple has raised already. *)
Lemma make_record_malformed row w :
  malformed_numeric row → ∃ e w', make_record row w = (Raise e, w').
Proof.
  intros Hbad.
  destruct (make_record row w) as [[r|e] w'] eqn:Hrun; [|eauto].
  apply make_record_Ok in Hrun
    as (_ & _ & _ & _ & _ & _ & Hstrike & Hlot & _ & Htick & _).
  destruct Hbad as [(s & Hk & Hs1 & Hs2 & Hp)|[(s & Hk & Hs1 & Hs2 & Hp)
                   |(s & Hk & Hs1 & Hs2 & Hp)]].
  - rewrite (float_or_none_other _ _ _ Hk Hs1 Hs2), Hp in Hstrike. done.
  - rewrite (int_or_one_other _ _ _ Hk Hs1 Hs2), Hp in Hlot. done.
  - rewrite (float_or_none_other _ _ _ Hk Hs1 Hs2), Hp in Htick. done.
Qed.

(** No per-row recovery: the loop raises as soon as one row does. *)
Lemma loop_raises total rows : ∀ i l w,
  Exists (λ row, ∀ w, ∃ e w', make_record row w = (Raise e, w')) rows →
  ∃ e w', for_enumerate (loop_body total) i rows l w = (Raise e, w').
Proof.
  induction rows as [|row rows IH]; intros i l w Hbad.
  - by apply Exists_nil in Hbad.
  - simpl. rewrite bind_run.
    destruct (loop_body total i row l w) as [[l1|e] w1] eqn:Hbody; [|eauto].
    apply Exists_cons in Hbad as [Hrow|Hrest]; [|by apply IH].
    apply loop_body_Ok in Hbody as (r & [w0 Hr] & _).
    destruct (Hrow w0) as (e & w' & Hraise). congruence.
Qed.

(** A raise in the loop ends the run, leaving the table empty in the
    file. *)
Lemma import_instruments_loop_raises rows w :
  Exists (λ row, ∀ w, ∃ e w', make_record row w = (Raise e, w')) rows →
  ∃ e w', import_instruments (Some rows) w = (Raise e, w') ∧
          instruments (disk w') = [].
Proof.
  intros Hbad. unfold import_instruments, import_and_log.
  set (init := {| l_batch := None; l_record := None; l_inserted := 0 |}).
  assert (∀ w0, instruments (view w0) = [] → disk w0 = view w0 →
    ∃ e w', for_enumerate (loop_body (Z.of_nat (length rows))) 0 rows init w0
              = (Raise e, w') ∧ instruments (disk w') = []) as Hloop.
  { intros w0 Hempty Hdisk.
    destruct (loop_raises (Z.of_nat (length rows)) rows 0 init w0 Hbad)
      as (e & w' & Hrun).
    destruct (loop_keeps_view (Z.of_nat (length rows)) 0 rows init w0)
      as [Hview Hd].
    rewrite Hrun in Hview, Hd. simpl in Hview, Hd.
    exists e, w'. split; [done|]. by rewrite (Hd Hdisk), Hview. }
  match goal with
  | |- ∃ e w', (?m ≫= ?f) w = _ ∧ _ =>
      cut (∃ e w', m w = (Raise e, w') ∧ instruments (disk w') = [])
  end.
  { intros (e & w' & Hrun & Hd). exists e, w'.
    rewrite (bind_Raise_l _ _ _ _ _ Hrun). exact (conj eq_refl Hd). }
  rewrite !print_bind, connect_bind. cbn [disk view trace clock].
  rewrite (bind_step _ _ _ _ _ (clear_instruments_run _)).
  cbn [disk view trace clock].
  match goal with
  | |- ∃ e w', (?m ≫= ?f) ?w0 = _ ∧ _ =>
      cut (∃ e w', m w0 = (Raise e, w') ∧ instruments (disk w') = [])
  end.
  { intros (e & w' & Hrun & Hd). exists e, w'.
    rewrite (bind_Raise_l _ _ _ _ _ Hrun). exact (conj eq_refl Hd). }
  unfold read_and_import. rewrite print_bind, ret_bind, !print_bind.
  cbn [disk view trace clock].
  match goal with
  | |- ∃ e w', (?m ≫= ?f) ?w0 = _ ∧ _ =>
      destruct (Hloop w0) as (e & w' & Hrun & Hd); [done..|]
  end.
  exists e, w'. rewrite (bind_Raise_l _ _ _ _ _ Hrun).
  exact (conj eq_refl Hd).
Qed.

(** C8: the exit status is 0 when [import_instruments] returns and 1 when
    it raises, with the failure message and the stack trace on the error
    stream.  A numeric field that does not parse, in [strike], [lotsize]
    or [tick_size] of any row, makes the run raise: the process exits with
    status 1 and no row of the file is in the table. *)
Theorem exit_status csv_file w :
  (∀ w', import_instruments csv_file w = (Ok (), w') →
         main csv_file w = (0, [], w')) ∧
  (∀ e w', import_instruments csv_file w = (Raise e, w') →
           main csv_file w = (1, [ImportFailed e; Traceback e], w')) ∧
  (∀ rows, csv_file = Some rows → Exists malformed_numeric rows →
           ∃ e w', main csv_file w = (1, [ImportFailed e; Traceback e], w') ∧
                   instruments (disk w') = []).
Proof.
  unfold main. split; [by intros w' ->|]. split; [by intros e w' ->|].
  intros rows -> Hbad.
  destruct (import_instruments_loop_raises rows w) as (e & w' & -> & Hd).
  { eapply Exists_impl; [exact Hbad|]. intros row Hrow w0.
    by apply make_record_malformed. }
  eauto.
Qed.
End Failures.

(** ** The report *)

Section Report.
Context `{PyBuiltins} `{SqlOrder}.

Lemma checks_for_each {A} (body : A → M unit) (bad : A → Prop) e xs : ∀ w,
  (∀ x w, checks e (bad x) (body x) w) →
  checks e (Exists bad xs) (for_each body xs) w.
Proof.
  induction xs as [|x xs IH]; intros w Hbody.
  - exists w. split; [done|]. split; [done|]. right.
    split; [by intros ?%Exists_nil|done].
  - simpl. destruct (Hbody x w) as (w1 & Hv1 & Hd1 & [[Hbad Hrun]|[Hok Hrun]]).
    + exists w1. split; [done|]. split; [done|]. left.
      split; [by left|]. by rewrite (bind_Raise_l _ _ _ _ _ Hrun).
    + destruct (IH w1 Hbody) as (w2 & Hv2 & Hd2 & Hcase).
      exists w2. split; [congruence|]. split; [congruence|].
      rewrite (bind_step _ _ _ _ _ Hrun).
      destruct Hcase as [[Hbad Hrest]|[Hgood Hrest]]; [left|right].
      * split; [by right|done].
      * split; [|done]. by intros [?|?]%Exists_cons.
Qed.

(** [checks] followed by a line printed. *)
Lemma checks_then_print e bad (m : M unit) l w :
  checks e bad m w → checks e bad (m;; print l) w.
Proof.
  intros (w1 & Hv & Hd & [[Hbad Hrun]|[Hok Hrun]]).
  - exists w1. split; [done|]. split; [done|]. left. split; [done|].
    by rewrite (bind_Raise_l _ _ _ _ _ Hrun).
  - eexists. rewrite (bind_step _ _ _ _ _ Hrun). unfold print, emit.
    split; [|split; [|right; split; [done|reflexivity]]]; done.
Qed.

Lemma print_count_row_checks row w :
  checks TypeError (row.1 = None) (print_count_row row) w.
Proof.
  unfold print_count_row, format_s. destruct row as [[key|] n]; simpl.
  - eexists. split; [|split; [|right; split; [done|reflexivity]]]; done.
  - exists w. split; [done|]. split; [done|]. by left.
Qed.

Lemma sample_row_checks
    (row : option string * option string * option string * option string) w :
  checks TypeError (null_in_sample row)
    (symbol ← format_s row.1.1.1;
     name ← format_s row.1.1.2;
     exchange ← format_s row.1.2;
     print (SampleRow symbol name exchange row.2)) w.
Proof.
  unfold null_in_sample, format_s.
  destruct row as [[[[symbol|] [name|]] [exchange|]] itype]; simpl;
    first
      [ by exists w; split; [done|]; split; [done|]; left; split; [tauto|]
      | eexists; split; [|split; [|right; split; [|reflexivity]]];
        [done|done|by intros [?|[?|?]]] ].
Qed.

Lemma show_sample_checks w :
  checks TypeError (sample_null (view w)) show_sample w.
Proof.
  unfold checks, show_sample. rewrite !print_bind, execute_query_bind.
  cbn [disk view trace clock].
  match goal with
  | |- ∃ w', _ ∧ _ ∧ (_ ∧ (for_each ?body ?rows ≫= _) ?w0 = _ ∨ _) =>
      destruct (checks_then_print TypeError _ (for_each body rows) (Text "")
                  w0 (checks_for_each body null_in_sample TypeError rows w0
                        (λ row w1, sample_row_checks row w1)))
        as (w' & Hv & Hd & Hcase)
  end.
  exists w'. split; [done|]. split; [done|]. exact Hcase.
Qed.

Lemma show_by_exchange_checks w :
  checks TypeError (exchange_null (view w)) show_by_exchange w.
Proof.
  unfold checks, show_by_exchange. rewrite !print_bind, execute_query_bind.
  cbn [disk view trace clock].
  match goal with
  | |- ∃ w', _ ∧ _ ∧ (_ ∧ (for_each ?body ?rows ≫= _) ?w0 = _ ∨ _) =>
      destruct (checks_then_print TypeError _ (for_each body rows) (Text "")
                  w0 (checks_for_each body (λ row, row.1 = None) TypeError
                        rows w0 (λ row w1, print_count_row_checks row w1)))
        as (w' & Hv & Hd & Hcase)
  end.
  exists w'. split; [done|]. split; [done|]. exact Hcase.
Qed.

Lemma show_by_type_checks w :
  checks TypeError (type_null (view w)) show_by_type w.
Proof.
  unfold checks, show_by_type. rewrite !print_bind, execute_query_bind.
  cbn [disk view trace clock].
  match goal with
  | |- ∃ w', _ ∧ _ ∧ (_ ∧ (for_each ?body ?rows ≫= _) ?w0 = _ ∨ _) =>
      destruct (checks_then_print TypeError _ (for_each body rows) (Text "")
                  w0 (checks_for_each body (λ row, row.1 = None) TypeError
                        rows w0 (λ row w1, print_count_row_checks row w1)))
        as (w' & Hv & Hd & Hcase)
  end.
  exists w'. split; [done|]. split; [done|]. exact Hcase.
Qed.

(** One check after another. *)
Lemma checks_seq e bad1 bad2 (m1 m2 : M unit) w :
  checks e bad1 m1 w →
  (∀ w1, view w1 = view w → checks e bad2 m2 w1) →
  checks e (bad1 ∨ bad2) (m1;; m2) w.
Proof.
  intros (w1 & Hv1 & Hd1 & [[Hbad Hrun]|[Hok Hrun]]) H2.
  - exists w1. split; [done|]. split; [done|]. left. split; [by left|].
    by rewrite (bind_Raise_l _ _ _ _ _ Hrun).
  - destruct (H2 w1 Hv1) as (w2 & Hv2 & Hd2 & Hcase).
    exists w2. split; [congruence|]. split; [congruence|].
    rewrite (bind_step _ _ _ _ _ Hrun).
    destruct Hcase as [[Hbad Hrest]|[Hgood Hrest]]; [left|right].
    + split; [by right|done].
    + split; [tauto|done].
Qed.

Lemma returns_bind {A B} (m : M A) (f : A → M B) :
  returns m → (∀ a, returns (f a)) → returns (m ≫= f).
Proof.
  intros Hm Hf w. destruct (Hm w) as (a & w1 & Hrun).
  rewrite (bind_step _ _ _ _ _ Hrun). apply Hf.
Qed.

Lemma returns_print l : returns (print l).
Proof. intros w. by eexists _, _. Qed.

Lemma returns_close : returns close.
Proof. intros w. by eexists _, _. Qed.

Lemma close_and_finish_run count fts_count w :
  ∃ w', close_and_finish count fts_count w = (Ok (), w') ∧ disk w' = disk w.
Proof.
  assert (returns (close_and_finish count fts_count)) as Hret.
  { unfold close_and_finish.
    repeat first [apply returns_bind; [|intros ?]
                 |apply returns_print|apply returns_close]. }
  destruct (Hret w) as ([] & w' & Hrun). exists w'. split; [done|].
  assert (keeps report_frame (close_and_finish count fts_count)) as Hkeep.
  { unfold close_and_finish.
    repeat first [apply keeps_bind; [apply _| |intros ?]|by intros ?]. }
  specialize (Hkeep w). rewrite Hrun in Hkeep. apply Hkeep.
Qed.

(** The report and the end of the procedure: a [TypeError] exactly when
    a formatted value is null; the file is as the import left it. *)
Lemma report_and_close_checks count fts_count w :
  ∃ w', disk w' = disk w ∧
    ((report_null (view w) ∧
      report_and_close count fts_count w = (Raise TypeError, w')) ∨
     (¬ report_null (view w) ∧
      report_and_close count fts_count w = (Ok (), w'))).
Proof.
  unfold report_and_close, report_null.
  pose proof (checks_seq TypeError (sample_null (view w))
                (exchange_null (view w) ∨ type_null (view w)) show_sample
                (show_by_exchange;; show_by_type) w (show_sample_checks w))
    as Hall.
  destruct Hall as (w1 & Hv & Hd & Hcase).
  { intros w1 Hv1. rewrite <-Hv1.
    apply checks_seq; [apply show_by_exchange_checks|].
    intros w2 Hv2. rewrite <-Hv2. apply show_by_type_checks. }
  destruct Hcase as [[Hbad Hrun]|[Hok Hrun]].
  - exists w1. split; [done|]. left. split; [done|].
    rewrite bind_run in Hrun. rewrite bind_run.
    destruct (show_sample w) as [[[]|e0] w0]; [|done].
    rewrite bind_run in Hrun. rewrite bind_run.
    destruct (show_by_exchange w0) as [[[]|e1] w3]; [|done].
    by rewrite (bind_Raise_l _ _ _ _ _ Hrun).
  - rewrite bind_run in Hrun.
    destruct (show_sample w) as [[[]|e0] w0] eqn:Hs; [|done].
    rewrite bind_run in Hrun.
    destruct (show_by_exchange w0) as [[[]|e1] w3] eqn:Hx; [|done].
    destruct (close_and_finish_run count fts_count w1) as (w' & Hfin & Hd').
    exists w'. split; [congruence|]. right. split; [done|].
    by rewrite (bind_step _ _ _ _ _ Hs), (bind_step _ _ _ _ _ Hx),
      (bind_step _ _ _ _ _ Hrun).
Qed.

Lemma group_count_keys keys : (group_count keys).*1 = remove_dups keys.
Proof.
  unfold group_count. rewrite <-list_fmap_compose.
  rewrite <-(list_fmap_id (remove_dups keys)) at 2. by apply list_fmap_ext.
Qed.

Lemma Exists_null_key (groups : list (option string * Z)) :
  Exists (λ row, row.1 = None) groups ↔ None ∈ groups.*1.
Proof.
  rewrite Exists_exists, list_elem_of_fmap. split.
  - intros (row & Hin & Hnull). eauto.
  - intros (row & Hnull & Hin). eauto.
Qed.

(** C10, amended: when the import and the refresh log are done, a null
    [symbol], [name] or [exchange] among the five sampled instruments, a
    null key among the (at most ten) groups the exchange query returns, or
    a null key among the groups of the type query makes the report raise
    [TypeError]: the process exits with status 1, with the data imported
    and the last row of the log saying [completed]. *)
Theorem report_raises_on_null csv_file w counts w1 :
  import_and_log csv_file w = (Ok counts, w1) →
  report_null (view w1) →
  ∃ w', main csv_file w
          = (1, [ImportFailed TypeError; Traceback TypeError], w') ∧
        disk w' = disk w1 ∧
        instruments (disk w') = instruments (view w1) ∧
        lg_status <$> last (instruments_refresh_log (disk w'))
          = Some "completed".
Proof.
  intros Hlog Hnull.
  destruct (report_and_close_checks counts.1 counts.2 w1)
    as (w' & Hdisk & [[_ Hrun]|[Hgood _]]); [|done].
  exists w'. unfold main, import_instruments.
  rewrite (bind_step _ _ _ _ _ Hlog), Hrun. split; [done|]. split; [done|].
  apply import_and_log_Ok in Hlog
    as (rows & rs & db & pre & _ & _ & _ & _ & _ & _ & ->).
  rewrite Hdisk. cbn [disk view]. split; [done|].
  unfold logged, insert_refresh_log. cbn [instruments_refresh_log].
  by rewrite last_snoc.
Qed.
End Report.

Section ReportGroups.
Context `{PyBuiltins} `{SqlOrder} `{!SqlOrderLaws}.

(** The type query has a null key exactly when some instrument has a null
    [instrumenttype]: the query returns every group. *)
Lemma type_null_iff db :
  type_null db ↔ ∃ row, row ∈ instruments db ∧ r_instrumenttype row.2 = None.
Proof.
  unfold type_null, select_by_type.
  rewrite Exists_null_key, order_by_count_desc_perm, group_count_keys.
  rewrite elem_of_remove_dups, list_elem_of_fmap. split.
  - intros (row & Hnull & Hin). eauto.
  - intros (row & Hin & Hnull). eauto.
Qed.

(** A null key in what the exchange query returns is the key of some
    instrument; the converse fails when the null group is not among the
    ten returned. *)
Lemma exchange_null_instrument db :
  exchange_null db → ∃ row, row ∈ instruments db ∧ r_exchange row.2 = None.
Proof.
  unfold exchange_null, select_by_exchange. rewrite Exists_null_key.
  intros Hin. apply list_elem_of_fmap in Hin as (g & Hnull & Hin).
  assert (None ∈ (order_by_count_desc
    (group_count ((λ row, r_exchange row.2) <$> instruments db))).*1) as Hkey.
  { apply list_elem_of_fmap. exists g. split; [done|].
    by apply (subseteq_take 10). }
  rewrite order_by_count_desc_perm, group_count_keys in Hkey.
  apply elem_of_remove_dups, list_elem_of_fmap in Hkey as (row & ? & ?).
  eauto.
Qed.
End ReportGroups.

(** ** What is stored *)

Section Stored.
Context `{PyBuiltins} `{SqlOrder}.

(** The process ends with the file as the import left it, whatever the
    report does. *)
Lemma main_disk csv_file w counts w1 :
  import_and_log csv_file w = (Ok counts, w1) →
  disk (main csv_file w).2 = disk w1.
Proof.
  intros Hlog. unfold main, import_instruments.
  rewrite (bind_step _ _ _ _ _ Hlog).
  by destruct (report_and_close_checks counts.1 counts.2 w1)
    as (w2 & Hdisk & [[_ ->]|[_ ->]]).
Qed.

Lemma Forall2_numbered {A} (P : A → Z * record → Prop) (l : list A) batch :
  ∀ first,
  Forall2 (λ x r, ∀ id, P x (id, r)) l batch →
  Forall2 P l (numbered first batch).
Proof.
  intros first Hall. revert first.
  induction Hall as [|x r l batch Hx Hall IH]; intros first; [constructor|].
  rewrite numbered_cons. constructor; [apply Hx|apply IH].
Qed.

Lemma Forall2_Forall_r_and {A B} (R : A → B → Prop) (P : B → Prop) l k :
  Forall2 R l k → Forall P k → Forall2 (λ x y, R x y ∧ P y) l k.
Proof.
  induction 1 as [|x y l k Hxy Hlk IH]; [constructor|].
  intros [Hy Hk]%Forall_cons. constructor; [done|by apply IH].
Qed.

(** The table when the process ends, if the import was completed: one row
    for each row of the file from the start of the last batch on, in
    order; the row is the tuple made of the file's row, as bound, and the
    tuple's integer fits. *)
Lemma stored_rows rows w counts w1 :
  import_and_log (Some rows) w = (Ok counts, w1) →
  Forall2 (λ row entry, ∃ t, transforms row t ∧
                             fits_int64 (r_lotsize t) = true ∧
                             entry.2 = bound t)
    (drop (batch_start (Z.of_nat (length rows))) rows)
    (instruments (disk (main (Some rows) w).2)).
Proof.
  intros Hlog. rewrite (main_disk _ _ _ _ Hlog).
  apply import_and_log_Ok in Hlog
    as (rows' & rs & db & pre & [= <-] & _ & Hrs & Hdb & _ & _ & ->).
  apply insert_instruments_Ok in Hdb as (Hfits & Hrows & _).
  cbn [disk]. rewrite logged_instruments, Hrows. simpl.
  apply Forall2_numbered, Forall2_fmap_r.
  unfold last_batch in Hfits. rewrite (Forall2_length _ _ _ Hrs).
  eapply Forall2_impl;
    [exact (Forall2_Forall_r_and _ _ _ _ (Forall2_drop _ _ _ _ Hrs) Hfits)|].
  intros row t [Ht Hfit] id. by exists t.
Qed.

(** What SQLite stores of a float that follows the spec's rule. *)
Lemma bind_real_rule s x : float_rule s x → stored_float_rule s (bind_real x).
Proof.
  intros [Hsentinel Hother]. split.
  - intros Hs. by rewrite (Hsentinel Hs).
  - intros Hs1 Hs2. destruct (Hother Hs1 Hs2) as (v & Hv & ->). by exists v.
Qed.

(** C6, amended: when the import is completed, the table that the process
    leaves holds one row for each row of the file from the start of the
    last batch on, which is every row of a file of at most 1000 rows.  In
    that row [strike] (respectively [tick_size]) is null when the field
    is the text [-1] or empty; for any other text it is the float the
    field parses to, except that a parse to NaN is stored as null. *)
Theorem stored_strike_tick_size rows w counts w1 :
  import_and_log (Some rows) w = (Ok counts, w1) →
  Forall2 (λ row entry,
      (∀ s, row !! "strike" = Some (PStr s) →
            stored_float_rule s (r_strike entry.2)) ∧
      (∀ s, row !! "tick_size" = Some (PStr s) →
            stored_float_rule s (r_tick_size entry.2)))
    (drop (batch_start (Z.of_nat (length rows))) rows)
    (instruments (disk (main (Some rows) w).2)) ∧
  ((length rows ≤ 1000)%nat →
   drop (batch_start (Z.of_nat (length rows))) rows = rows).
Proof.
  intros Hlog. split.
  - eapply Forall2_impl; [by eapply stored_rows|].
    intros row [id r] (t & [w0 Ht] & _ & ->). simpl.
    apply make_record_Ok in Ht
      as (_ & _ & _ & _ & _ & _ & Hstrike & _ & _ & Htick & _).
    split; intros s Hk; apply bind_real_rule; by eapply float_or_none_rule.
  - intros Hlen. by rewrite batch_start_small.
Qed.

(** C7, amended: when the import is completed, the table that the process
    leaves holds one row for each row of the file from the start of the
    last batch on, which is every row of a file of at most 1000 rows.  In
    that row [lotsize] is the integer 1 when the field is the text [-1]
    or empty, and for any other text it is the integer the field parses
    to; that integer fits in 64 bits. *)
Theorem stored_lotsize rows w counts w1 :
  import_and_log (Some rows) w = (Ok counts, w1) →
  Forall2 (λ row entry,
      ∀ s, row !! "lotsize" = Some (PStr s) →
           lotsize_rule s (r_lotsize entry.2) ∧
           fits_int64 (r_lotsize entry.2) = true)
    (drop (batch_start (Z.of_nat (length rows))) rows)
    (instruments (disk (main (Some rows) w).2)) ∧
  ((length rows ≤ 1000)%nat →
   drop (batch_start (Z.of_nat (length rows))) rows = rows).
Proof.
  intros Hlog. split.
  - eapply Forall2_impl; [by eapply stored_rows|].
    intros row [id r] (t & [w0 Ht] & Hfit & ->) s Hk. simpl.
    apply make_record_Ok in Ht as (_ & _ & _ & _ & _ & _ & _ & Hlot & _).
    split; [by eapply int_or_one_rule|done].
  - intros Hlen. by rewrite batch_start_small.
Qed.
End Stored.

(** ** Running the import again *)

Section Rerun.
Context `{PyBuiltins} `{SqlOrder}.

(** The transformer reads the row and the clock only: what it makes of a
    row at two times differs in the timestamps at most. *)
Lemma transforms_untimed row r r' :
  transforms row r → transforms row r' → untimed r = untimed r'.
Proof.
  intros [w Hr] [w' Hr'].
  apply make_record_Ok in Hr
    as (E1 & E2 & E3 & E4 & E5 & E6 & E7 & E8 & E9 & E10 & _ & _ & E11 & _).
  apply make_record_Ok in Hr'
    as (F1 & F2 & F3 & F4 & F5 & F6 & F7 & F8 & F9 & F10 & _ & _ & F11 & _).
  unfold untimed. f_equal; congruence.
Qed.

Lemma transforms_any_world row r w :
  transforms row r → ∃ r', make_record row w = (Ok r', ticked w).
Proof.
  intros [w0 Hr].
  apply make_record_Ok in Hr
    as (E1 & E2 & E3 & E4 & E5 & E6 & E7 & E8 & E9 & E10 & _ & _ & E11 & _).
  unfold make_record.
  rewrite E1, E2, E3, E4, E5, E6, E7, E8, E9, E10, E11.
  rewrite !lift_bind, !now_isoformat_bind, lift_bind. eauto.
Qed.

Lemma Forall2_transforms_untimed rows rs rs' :
  Forall2 transforms rows rs → Forall2 transforms rows rs' →
  untimed <$> rs = untimed <$> rs'.
Proof.
  intros Hrs. revert rs'.
  induction Hrs as [|row r rows rs Hr Hrs IH]; intros rs' Hrs'.
  - by apply Forall2_nil_inv_l in Hrs' as ->.
  - apply Forall2_cons_inv_l in Hrs' as (r' & rs0 & Hr' & Hrs' & ->).
    simpl. f_equal; [by eapply transforms_untimed|by apply IH].
Qed.

Lemma last_batch_fmap (f : record → record) rs :
  f <$> last_batch rs = last_batch (f <$> rs).
Proof. unfold last_batch. by rewrite fmap_drop, length_fmap. Qed.

(** One iteration returns when the row makes a tuple. *)
Lemma loop_body_total total done row l w :
  total ≠ 0 → (∃ r, transforms row r) → loop_state done l →
  ∃ l' w', loop_body total (Z.of_nat (length done)) row l w = (Ok l', w').
Proof.
  intros Htotal [r Hr] [Hins Hst]. unfold loop_body.
  assert (∀ l1 w1, is_Some (l_batch l1) →
    ∃ l' w', (make_record row ≫= λ r,
                (match l_batch l1 with
                 | Some b => mret b
                 | None => raise (UnboundLocalError "batch")
                 end) ≫= λ b,
                  mret {| l_batch := Some (b ++ [r]); l_record := Some r;
                          l_inserted := l_inserted l1 + 1 |}) w1
             = (Ok l', w')) as Hrest.
  { intros l1 w1 [b Hb]. destruct (transforms_any_world row r w1 Hr) as [r' Hr'].
    rewrite (bind_step _ _ _ _ _ Hr'), Hb. eauto. }
  match goal with
  | |- ∃ l' w', (?head ≫= _) w = _ =>
      assert (∃ l1 w1, head w = (Ok l1, w1) ∧ is_Some (l_batch l1))
        as (l1 & w1 & Hhead & Hb)
  end.
  { repeat case_bool_decide; try done.
    - eexists _, _. split; [reflexivity|]. simpl. eauto.
    - eexists _, _. split; [reflexivity|]. simpl. eauto.
    - eexists _, _. split; [reflexivity|].
      destruct done as [|r0 done0]; [done|]. destruct Hst as [-> _]. eauto. }
  rewrite (bind_step _ _ _ _ _ Hhead). by apply Hrest.
Qed.

Lemma loop_total total rows : ∀ done l w,
  total ≠ 0 → Forall (λ row, ∃ r, transforms row r) rows →
  loop_state done l →
  ∃ l' w', for_enumerate (loop_body total) (Z.of_nat (length done)) rows l w
             = (Ok l', w').
Proof.
  induction rows as [|row rows IH]; intros done l w Htotal Hrows Hst.
  - simpl. eauto.
  - apply Forall_cons in Hrows as [Hrow Hrows]. simpl.
    destruct (loop_body_total total done row l w Htotal Hrow Hst)
      as (l1 & w1 & Hbody).
    rewrite (bind_step _ _ _ _ _ Hbody).
    apply loop_body_Ok in Hbody as (r & Hr & Hrec & Hins & _ & Hcase).
    pose proof (loop_state_step _ _ _ _ Hst Hrec Hins Hcase) as Hst1.
    replace (Z.of_nat (length done) + 1) with (Z.of_nat (length (done ++ [r])))
      by (rewrite length_app; simpl; lia).
    by apply IH.
Qed.

Lemma commit_final_batch_total rs l w :
  loop_state rs l → rs ≠ [] →
  Forall (λ r, fits_int64 (r_lotsize r) = true) (last_batch rs) →
  ∃ w', commit_final_batch l w = (Ok (), w').
Proof.
  intros [_ Hst] Hne Hfits. unfold commit_final_batch.
  destruct rs as [|r0 rs0] eqn:Hrs; [done|]. rewrite <-Hrs in *.
  destruct Hst as [-> ->]. fold (last_batch rs).
  pose proof (last_batch_nonempty rs Hne) as Hb.
  destruct (last_batch rs) as [|b0 bs] eqn:Hbatch; [done|].
  destruct (last rs) as [rl|] eqn:Hlast; [|by apply last_None in Hlast].
  destruct (insert_instruments_total (b0 :: bs) (view w) Hfits) as [db Hdb].
  rewrite bind_run. unfold executemany. rewrite Hdb.
  rewrite commit_bind. unfold print, emit. eauto.
Qed.

(** The load returns when the file has rows, every row makes a tuple, and
    the integers of the last batch fit. *)
Lemma read_and_import_total rows w :
  rows ≠ [] →
  Forall (λ row, ∃ r, transforms row r) rows →
  (∀ rs, Forall2 transforms rows rs →
         Forall (λ r, fits_int64 (r_lotsize r) = true) (last_batch rs)) →
  ∃ w', read_and_import (Some rows) w = (Ok (), w').
Proof.
  intros Hne Hrows Hfits. unfold read_and_import.
  rewrite print_bind, ret_bind, !print_bind. cbn [disk view trace clock].
  match goal with
  | |- ∃ w', (for_enumerate ?body 0 rows ?l0 ≫= _) ?w0 = _ =>
      destruct (loop_total (Z.of_nat (length rows)) rows [] l0 w0)
        as (l' & w1 & Hloop); [| |by split|]
  end.
  { destruct rows; [done|]. simpl. lia. }
  { done. }
  simpl in Hloop. rewrite (bind_step _ _ _ _ _ Hloop).
  apply (loop_Ok _ _ []) in Hloop as (rs & Hrs & Hst & _); [|by split].
  simpl in Hst. apply (commit_final_batch_total rs); [done| |by apply Hfits].
  intros ->. apply Forall2_nil_inv_r in Hrs. done.
Qed.

Lemma import_and_log_total rows w :
  (∃ w', read_and_import (Some rows)
           {| disk := delete_instruments (disk w);
              view := delete_instruments (disk w);
              trace := trace w ++
                [Print (Text (rule "="));
                 Print (Text "Starting instruments import from CSV...");
                 Print (Text (rule "=")); Print (Text "");
                 Print (Text "Clearing existing instruments...");
                 Execute DeleteInstruments; Commit;
                 Print (Text ("✓ Existing instruments cleared" +:+ nl))];
              clock := clock w |} = (Ok (), w')) →
  ∃ counts w1, import_and_log (Some rows) w = (Ok counts, w1).
Proof.
  intros [w' Hload]. unfold import_and_log.
  rewrite !print_bind, connect_bind. cbn [disk view trace clock].
  rewrite (bind_step _ _ _ _ _ (clear_instruments_run _)).
  cbn [disk view trace clock]. rewrite <-!app_assoc. simpl app.
  rewrite (bind_step _ _ _ _ _ Hload).
  rewrite (bind_step _ _ _ _ _ (verify_import_run _)).
  rewrite (bind_step _ _ _ _ _ (rebuild_fts_table_run _)).
  rewrite (bind_step _ _ _ _ _ (update_refresh_log_run _ _)).
  eauto.
Qed.

(** What the report formats is read off the table's data. *)
Lemma select_sample_data db :
  select_sample db =
    (λ r, (r_symbol r, r_name r, r_exchange r, r_instrumenttype r))
      <$> take 5 (table_data db).
Proof.
  unfold select_sample, table_data.
  rewrite <-fmap_take, <-list_fmap_compose. by apply list_fmap_ext.
Qed.

Lemma select_by_exchange_data db :
  select_by_exchange db =
    take 10 (order_by_count_desc (group_count (r_exchange <$> table_data db))).
Proof.
  unfold select_by_exchange, table_data. do 3 f_equal.
  rewrite <-list_fmap_compose. by apply list_fmap_ext.
Qed.

Lemma select_by_type_data db :
  select_by_type db =
    order_by_count_desc (group_count (r_instrumenttype <$> table_data db)).
Proof.
  unfold select_by_type, table_data. do 2 f_equal.
  rewrite <-list_fmap_compose. by apply list_fmap_ext.
Qed.

Lemma report_null_data db db' :
  table_data db = table_data db' → report_null db → report_null db'.
Proof.
  unfold report_null, sample_null, exchange_null, type_null. intros Hdata.
  by rewrite !select_sample_data, !select_by_exchange_data,
    !select_by_type_data, Hdata.
Qed.

Lemma table_data_logged db t : table_data (logged db t) = table_data db.
Proof. reflexivity. Qed.

Lemma table_data_numbered db first batch :
  instruments db = numbered first batch → table_data db = untimed <$> batch.
Proof.
  unfold table_data. intros ->.
  rewrite <-(numbered_records first batch) at 2.
  by rewrite <-list_fmap_compose.
Qed.

Lemma import_instruments_log csv_file w w' :
  import_instruments csv_file w = (Ok (), w') →
  ∃ started completed,
    instruments_refresh_log (disk w') =
      instruments_refresh_log (disk w) ++
        [log_entry (count_rows (instruments (disk w'))) started completed].
Proof.
  intros Hrun. apply import_instruments_Ok in Hrun
    as (rows & rs & db & pre & post & -> & Hne & Hrs & Hdb & Hdisk & _).
  apply insert_instruments_Ok in Hdb as (_ & _ & _ & Hlog).
  eexists _, _. rewrite Hdisk. unfold logged, insert_refresh_log. simpl.
  by rewrite Hlog.
Qed.

(** A run that returns has no null to format, and its outcome is fixed by
    the rows of the file. *)
Lemma import_instruments_Ok_report csv_file w w' :
  import_instruments csv_file w = (Ok (), w') →
  ∃ rows rs first,
    csv_file = Some rows ∧ rows ≠ [] ∧ Forall2 transforms rows rs ∧
    Forall (λ r, fits_int64 (r_lotsize r) = true) (last_batch rs) ∧
    instruments (disk w') = numbered first (bound <$> last_batch rs) ∧
    ¬ report_null (disk w').
Proof.
  intros Hrun. unfold import_instruments in Hrun.
  apply bind_Ok in Hrun as (counts & wl & Hlog & Hreport).
  destruct (report_and_close_checks counts.1 counts.2 wl)
    as (w0 & Hdisk & [[_ Hraise]|[Hgood Hok]]); [congruence|].
  rewrite Hreport in Hok. injection Hok as <-.
  apply import_and_log_Ok in Hlog
    as (rows & rs & db & pre & -> & Hne & Hrs & Hdb & _ & _ & ->).
  apply insert_instruments_Ok in Hdb as (Hfits & Hrows & _).
  exists rows, rs, (next_rowid (delete_instruments (disk w))).
  split; [done|]. split; [done|]. split; [done|]. split; [done|].
  rewrite Hdisk. cbn [disk view] in *. split; [|done].
  by rewrite logged_instruments, Hrows.
Qed.

Lemma fits_untimed (l l' : list record) :
  untimed <$> l' = untimed <$> l →
  Forall (λ r, fits_int64 (r_lotsize r) = true) l →
  Forall (λ r, fits_int64 (r_lotsize r) = true) l'.
Proof.
  intros Heq Hl.
  assert (Forall (λ r, fits_int64 (r_lotsize r) = true) (untimed <$> l'))
    as Hu.
  { rewrite Heq. apply Forall_fmap. exact Hl. }
  apply Forall_fmap in Hu. exact Hu.
Qed.

(** Binding leaves the timestamps alone: tuples that differ in their
    timestamps only are stored as rows that differ in them only. *)
Lemma untimed_bound_fmap (l l' : list record) :
  untimed <$> l = untimed <$> l' →
  untimed <$> (bound <$> l) = untimed <$> (bound <$> l').
Proof.
  intros Heq.
  assert (∀ l0 : list record,
    untimed <$> (bound <$> l0) = bound <$> (untimed <$> l0)) as Hswap.
  { intros l0. rewrite <-!list_fmap_compose. by apply list_fmap_ext. }
  by rewrite !Hswap, Heq.
Qed.

Lemma Forall2_transforms_each rows rs :
  Forall2 transforms rows rs → Forall (λ row, ∃ r, transforms row r) rows.
Proof. induction 1; constructor; eauto. Qed.

(** C3: when a run on a file returns, a second run on the same file, from
    the database the first one left and at any later time, returns too.
    It leaves as many rows in [instruments] as the first, with the same
    data in the same order under distinct rowids, all of them made by the
    second run from the file: the rows of the first run are deleted, not
    added to or updated.  Each run appends one row to the log. *)
Theorem rerun_replaces csv_file db t w1 t' :
  import_instruments csv_file (start db t) = (Ok (), w1) →
  ∃ w2,
    import_instruments csv_file (start (disk w1) t') = (Ok (), w2) ∧
    count_rows (instruments (disk w2)) = count_rows (instruments (disk w1)) ∧
    table_data (disk w2) = table_data (disk w1) ∧
    NoDup (table_ids (instruments (disk w2))) ∧
    (∃ rows rs first,
       csv_file = Some rows ∧ Forall2 transforms rows rs ∧
       instruments (disk w2) = numbered first (bound <$> last_batch rs)) ∧
    ∃ started1 completed1 started2 completed2,
      instruments_refresh_log (disk w2) =
        instruments_refresh_log db ++
          [log_entry (count_rows (instruments (disk w1))) started1 completed1;
           log_entry (count_rows (instruments (disk w2))) started2 completed2].
Proof.
  intros Hrun1.
  destruct (import_instruments_log _ _ _ Hrun1) as (s1 & c1 & Hlog1).
  apply import_instruments_Ok_report in Hrun1
    as (rows & rs & first & -> & Hne & Hrs & Hfits & Htable1 & Hgood1).
  (* the second import returns *)
  destruct (import_and_log_total rows (start (disk w1) t'))
    as (counts & wl & Hlog).
  { apply read_and_import_total; [done| |].
    - by eapply Forall2_transforms_each.
    - intros rs' Hrs'.
      pose proof (Forall2_transforms_untimed _ _ _ Hrs Hrs') as Hsame.
      assert (untimed <$> last_batch rs' = untimed <$> last_batch rs) as Hb
        by (by rewrite !last_batch_fmap, Hsame).
      by apply (fits_untimed (last_batch rs)). }
  (* and formats what the first one formatted *)
  pose proof Hlog as Hlog'.
  apply import_and_log_Ok in Hlog'
    as (rows' & rs' & db' & pre & [= <-] & _ & Hrs' & Hdb' & _ & _ & Hwl).
  apply insert_instruments_Ok in Hdb' as (_ & Hrows' & _).
  simpl in Hrows'.
  assert (instruments (view wl)
          = numbered (next_rowid (delete_instruments (disk w1)))
              (bound <$> last_batch rs')) as Htable2
    by (by rewrite Hwl; cbn [view]; rewrite logged_instruments).
  assert (table_data (view wl) = table_data (disk w1)) as Hdata.
  { rewrite (table_data_numbered _ _ _ Htable1),
      (table_data_numbered _ _ _ Htable2).
    apply untimed_bound_fmap. rewrite !last_batch_fmap.
    f_equal. by apply (Forall2_transforms_untimed rows). }
  destruct (report_and_close_checks counts.1 counts.2 wl)
    as (w2 & Hdisk & [[Hnull _]|[_ Hreport]]).
  { destruct Hgood1. by apply (report_null_data (view wl)). }
  assert (disk wl = view wl) as Hview by (by rewrite Hwl).
  assert (import_instruments (Some rows) (start (disk w1) t') = (Ok (), w2))
    as Hrun2.
  { unfold import_instruments. by rewrite (bind_step _ _ _ _ _ Hlog). }
  destruct (import_instruments_log _ _ _ Hrun2) as (s2 & c2 & Hlog2).
  assert (instruments (disk w2)
          = numbered (next_rowid (delete_instruments (disk w1)))
              (bound <$> last_batch rs')) as Htable2'
    by (by rewrite Hdisk, Hview).
  assert (table_data (disk w2) = table_data (disk w1)) as Hdata'
    by (by unfold table_data in *; rewrite Hdisk, Hview).
  exists w2. split; [done|].
  split.
  { apply (f_equal length) in Hdata'. unfold table_data in Hdata'.
    rewrite !length_fmap in Hdata'. unfold count_rows. by rewrite Hdata'. }
  split; [done|].
  split; [rewrite Htable2'; apply numbered_ids_NoDup|].
  split; [by eauto 10|].
  exists s1, c1, s2, c2. rewrite Hlog2. cbn [start disk].
  rewrite Hlog1, <-app_assoc. done.
Qed.
End Rerun.

(** ** The sample engine orders by count *)

Lemma insert_desc_perm x l : Sample.insert_desc x l ≡ₚ x :: l.
Proof.
  induction l as [|y l IH]; simpl; [done|].
  case_bool_decide; [done|]. rewrite IH. apply Permutation_swap.
Qed.

Lemma sort_desc_perm l : Sample.sort_desc l ≡ₚ l.
Proof.
  induction l as [|x l IH]; simpl; [done|].
  by rewrite insert_desc_perm, IH.
Qed.

Lemma insert_desc_hdrel a x l :
  x.2 <= a.2 →
  HdRel (λ a b, b.2 <= a.2) a l →
  HdRel (λ a b, b.2 <= a.2) a (Sample.insert_desc x l).
Proof.
  intros Hx Hl. destruct l as [|y l]; simpl; [by constructor|].
  case_bool_decide; constructor; [done|]. by inversion Hl.
Qed.

Lemma insert_desc_sorted x l :
  Sorted (λ a b, b.2 <= a.2) l → Sorted (λ a b, b.2 <= a.2) (Sample.insert_desc x l).
Proof.
  induction 1 as [|y l Hs IH Hhd]; simpl.
  - repeat constructor.
  - case_bool_decide.
    + constructor; [by constructor|]. constructor. lia.
    + constructor; [done|]. apply insert_desc_hdrel; [lia|done].
Qed.

Lemma sort_desc_sorted l : Sorted (λ a b, b.2 <= a.2) (Sample.sort_desc l).
Proof.
  induction l as [|x l IH]; simpl; [constructor|].
  by apply insert_desc_sorted.
Qed.

#[global] Instance sample_engine_laws : SqlOrderLaws := {|
  order_by_count_desc_perm := sort_desc_perm;
  order_by_count_desc_sorted := sort_desc_sorted;
|}.

(** ** The script on the sample files *)

Lemma three_rows_run :
  import_instruments (Some Sample.three_rows) (start Sample.empty_db 0) =
    (Ok (),
     (import_instruments (Some Sample.three_rows)
        (start Sample.empty_db 0)).2).
Proof.
  assert ((import_instruments (Some Sample.three_rows)
             (start Sample.empty_db 0)).1 = Ok ()) as Hok
    by (vm_compute; reflexivity).
  rewrite <-Hok. apply surjective_pairing.
Qed.

Lemma refresh_log_appended_witness :
  let w := start Sample.empty_db 0 in
  let out := import_instruments (Some Sample.three_rows) w in
  out.1 = Ok () ∧
  ∃ rows, Some Sample.three_rows = Some rows ∧
    instruments_refresh_log (disk out.2) =
      instruments_refresh_log (disk w) ++
        [{| lg_exchange := "CSV_UPLOAD";
            lg_status := "completed";
            lg_instrument_count := count_rows (instruments (disk out.2));
            lg_refresh_started_at :=
              isoformat_now (clock w + 2 * length rows);
            lg_refresh_completed_at :=
              isoformat_now (S (clock w + 2 * length rows)) |}].
Proof.
  split.
  - exact (f_equal fst three_rows_run).
  - exact (refresh_log_appended _ _ _ three_rows_run).
Defined.

Lemma fts_rebuilt_after_insert_witness :
  let out :=
    import_instruments (Some Sample.three_rows) (start Sample.empty_db 0) in
  out.1 = Ok () ∧
  instruments_fts (disk out.2) =
    (λ row, (row.1, (r_symbol row.2, r_name row.2)))
      <$> instruments (disk out.2) ∧
  count_rows (instruments_fts (disk out.2))
    = count_rows (instruments (disk out.2)).
Proof.
  split.
  - exact (f_equal fst three_rows_run).
  - destruct (fts_rebuilt_after_insert _ _ _ _ three_rows_run)
      as (Hfts & Hcount & _).
    exact (conj Hfts Hcount).
Defined.

(** C1: on a file of 1001 data rows the run returns with exit status 0
    and COUNT( * ) on [instruments] is 1, not 1001: only the batch that
    is open when the loop ends is ever inserted. *)
Theorem import_1001_rows_keeps_one :
  let out := main (Some Sample.many_rows) (start Sample.empty_db 0) in
  out.1.1 = 0 ∧ count_rows (instruments (disk out.2)) = 1.
Proof. vm_compute. done. Qed.

(** C2: on a file of 1001 data rows, at the batch boundary of row 1000,
    where line 47 commits, 1000 records have been processed and
    COUNT( * ) on [instruments] is 0, in the open transaction and in the
    file after the commit: the loop has inserted none of them. *)
Theorem batch_boundary_inserts_nothing :
  let w0 := (clear_instruments (start Sample.empty_db 0)).2 in
  let after :=
    for_enumerate (loop_body 1001) 0 (take 1000 Sample.many_rows)
      {| l_batch := None; l_record := None; l_inserted := 0 |} w0 in
  l_inserted <$> after.1 = Ok 1000 ∧
  count_rows (instruments (view after.2)) = 0 ∧
  count_rows (instruments (disk (commit after.2).2)) = 0.
Proof. vm_compute. done. Qed.

Lemma exit_status_witness :
  let rows := [Sample.nifty_row; Sample.bad_strike_row] in
  Exists malformed_numeric rows ∧
  ∃ e w', main (Some rows) (start Sample.empty_db 0)
            = (1, [ImportFailed e; Traceback e], w') ∧
          instruments (disk w') = [].
Proof.
  intros rows.
  assert (Exists malformed_numeric rows) as Hbad.
  { right. left. left. exists "12abc". by repeat split. }
  split; [exact Hbad|].
  destruct (exit_status (Some rows) (start Sample.empty_db 0))
    as (_ & _ & Hraise).
  exact (Hraise rows eq_refl Hbad).
Defined.

Lemma unnamed_row_logged :
  import_and_log (Some [Sample.unnamed_row]) (start Sample.empty_db 0) =
    (Ok (1, 1),
     (import_and_log (Some [Sample.unnamed_row])
        (start Sample.empty_db 0)).2).
Proof.
  assert ((import_and_log (Some [Sample.unnamed_row])
             (start Sample.empty_db 0)).1 = Ok (1, 1)) as Hok
    by (vm_compute; reflexivity).
  rewrite <-Hok. apply surjective_pairing.
Qed.

Lemma unnamed_row_sample :
  select_sample
    (view (import_and_log (Some [Sample.unnamed_row])
             (start Sample.empty_db 0)).2)
  = [(None, None, Some "NSE", Some "EQ")].
Proof. vm_compute. reflexivity. Qed.

Lemma report_raises_on_null_witness :
  let w := start Sample.empty_db 0 in
  let w1 := (import_and_log (Some [Sample.unnamed_row]) w).2 in
  report_null (view w1) ∧
  ∃ w', main (Some [Sample.unnamed_row]) w
          = (1, [ImportFailed TypeError; Traceback TypeError], w') ∧
        disk w' = disk w1 ∧
        instruments (disk w') = instruments (view w1) ∧
        lg_status <$> last (instruments_refresh_log (disk w'))
          = Some "completed".
Proof.
  intros w w1.
  assert (report_null (view w1)) as Hnull.
  { left. unfold sample_null, w1, w. rewrite unnamed_row_sample.
    left. by left. }
  split; [exact Hnull|].
  exact (report_raises_on_null _ _ _ _ unnamed_row_logged Hnull).
Defined.

Section AnyEngine.
Context {engine : SqlOrder} {laws : SqlOrderLaws}.

(** In a list ordered by count, an element is not before one with a
    larger count. *)
Lemma ordered_lookup (l : list (option string * Z)) i j a b :
  Sorted (λ a b, b.2 <= a.2) l →
  l !! i = Some a → l !! j = Some b → (i < j)%nat → b.2 <= a.2.
Proof.
  intros Hs%Sorted_StronglySorted; [|intros x y z ??; lia].
  revert i j. induction Hs as [|x l Hs IH Hall]; intros i j Hi Hj Hij.
  - by rewrite lookup_nil in Hi.
  - destruct j as [|j]; [lia|]. simpl in Hj.
    destruct i as [|i]; simpl in Hi.
    + injection Hi as ->. rewrite Forall_forall in Hall. apply Hall.
      by eapply list_elem_of_lookup_2.
    + apply (IH i j); [done..|lia].
Qed.

(** The ten largest groups leave out a group that is smaller than ten
    others. *)
Lemma smallest_group_not_listed (groups : list (option string * Z)) g :
  NoDup groups → g ∈ groups → length groups = 11%nat →
  (∀ g', g' ∈ groups → g' ≠ g → g.2 < g'.2) →
  g ∉ take 10 (order_by_count_desc groups).
Proof.
  intros Hnodup Hg Hlen Hsmall Hin.
  pose proof (order_by_count_desc_perm groups) as Hperm.
  pose proof (order_by_count_desc_sorted groups) as Hsorted.
  set (l := order_by_count_desc groups) in *.
  assert (length l = 11%nat) as Hl by (by rewrite Hperm).
  assert (NoDup l) as Hnd by (by rewrite Hperm).
  apply list_elem_of_lookup in Hin as [i Hi].
  pose proof (lookup_lt_Some _ _ _ Hi) as Hlt. rewrite length_take in Hlt.
  rewrite lookup_take_lt in Hi by lia.
  destruct (lookup_lt_is_Some_2 l 10) as [x Hx]; [lia|].
  assert (x ≠ g) as Hne.
  { intros ->. pose proof (NoDup_lookup _ _ _ _ Hnd Hi Hx). lia. }
  assert (x ∈ groups) as Hxin.
  { rewrite <-Hperm. by eapply list_elem_of_lookup_2. }
  pose proof (Hsmall x Hxin Hne).
  pose proof (ordered_lookup l i 10 g x Hsorted Hi Hx). lia.
Qed.

Lemma eleven_exchanges_logged :
  import_and_log (Some Sample.eleven_exchanges) (start Sample.empty_db 0) =
    (Ok (21, 21),
     (import_and_log (Some Sample.eleven_exchanges)
        (start Sample.empty_db 0)).2).
Proof.
  assert ((import_and_log (Some Sample.eleven_exchanges)
             (start Sample.empty_db 0)).1 = Ok (21, 21)) as Hok
    by (vm_compute; reflexivity).
  rewrite <-Hok. apply surjective_pairing.
Qed.

Lemma eleven_exchanges_sample :
  select_sample
    (view (import_and_log (Some Sample.eleven_exchanges)
             (start Sample.empty_db 0)).2)
  = replicate 2 (Some "ACME", Some "ACME", Some "NSE", Some "EQ") ++
    replicate 2 (Some "ACME", Some "ACME", Some "BSE", Some "EQ") ++
    [(Some "ACME", Some "ACME", Some "NFO", Some "EQ")].
Proof. vm_compute. reflexivity. Qed.

Lemma eleven_exchanges_groups :
  group_count
    ((λ row, r_exchange row.2) <$>
       instruments
         (view (import_and_log (Some Sample.eleven_exchanges)
                  (start Sample.empty_db 0)).2))
  = [(Some "NSE", 2); (Some "BSE", 2); (Some "NFO", 2); (Some "BFO", 2);
     (Some "MCX", 2); (Some "CDS", 2); (Some "BCD", 2); (Some "NCDEX", 2);
     (Some "NSE_INDEX", 2); (Some "BSE_INDEX", 2); (None, 1)].
Proof. vm_compute. reflexivity. Qed.

Lemma eleven_exchanges_types :
  (λ row, r_instrumenttype row.2) <$>
    instruments
      (view (import_and_log (Some Sample.eleven_exchanges)
               (start Sample.empty_db 0)).2)
  = replicate 21 (Some "EQ").
Proof. vm_compute. reflexivity. Qed.

(** Whatever order the engine gives to equal counts, the file of eleven
    exchanges is imported and reported without a failure, the null
    exchange group notwithstanding. *)
Lemma eleven_exchanges_any_engine :
  (@main Sample.builtins engine (Some Sample.eleven_exchanges)
     (start Sample.empty_db 0)).1 = (0, []).
Proof.
  unfold main, import_instruments.
  rewrite (bind_step _ _ _ _ _ eleven_exchanges_logged). cbn [fst snd].
  set (wl := (import_and_log (Some Sample.eleven_exchanges)
                (start Sample.empty_db 0)).2).
  destruct (report_and_close_checks 21 21 wl)
    as (w' & _ & [[Hnull _]|[_ Hrun]]); [exfalso|by rewrite Hrun].
  destruct Hnull as [Hs|[Hx|Ht]].
  - unfold sample_null, wl in Hs. rewrite eleven_exchanges_sample in Hs.
    simpl in Hs.
    repeat (apply Exists_cons in Hs as [Hs|Hs];
            [by destruct Hs as [?|[?|?]]|]).
    by apply Exists_nil in Hs.
  - unfold exchange_null, select_by_exchange, wl in Hx.
    rewrite eleven_exchanges_groups in Hx.
    apply Exists_exists in Hx as (g & Hin & Hnone).
    match type of Hin with
    | _ ∈ take 10 (order_by_count_desc ?groups) =>
        assert (g ∈ groups) as Hg
          by (rewrite <-(order_by_count_desc_perm groups);
              by apply (subseteq_take 10));
        assert (g = (None, 1)) as ->
          by (by repeat (apply elem_of_cons in Hg as [->|Hg]; [done|]);
              apply elem_of_nil in Hg);
        apply (smallest_group_not_listed groups (None, 1)) in Hin; [done|..]
    end.
    + by apply (bool_decide_unpack _).
    + set_solver.
    + done.
    + intros g' Hg' Hne.
      repeat (apply elem_of_cons in Hg' as [->|Hg']; [by simpl|]).
      by apply elem_of_nil in Hg'.
  - apply type_null_iff in Ht as (row & Hin & Hnone).
    apply (list_elem_of_fmap_2 (λ row, r_instrumenttype row.2)) in Hin.
    unfold wl in Hin. rewrite eleven_exchanges_types, Hnone in Hin.
    by apply elem_of_replicate in Hin as [? _].
Qed.
End AnyEngine.

(** C10 as stated fails: in this file the instrument with the null
    [exchange] is the only one of its group and ten groups have two, so
    the query's LIMIT 10 leaves the null group out; nothing null is
    formatted and the process exits with status 0. *)
Lemma null_exchange_group_exit_0 :
  let out := main (Some Sample.eleven_exchanges) (start Sample.empty_db 0) in
  None ∈ (group_count
            ((λ row, r_exchange row.2) <$> instruments (disk out.2))).*1 ∧
  out.1 = (0, []).
Proof.
  split.
  - apply (bool_decide_unpack _). vm_compute. exact I.
  - vm_compute. reflexivity.
Qed.

Lemma rerun_replaces_witness :
  let w1 :=
    (import_instruments (Some Sample.three_rows)
       (start Sample.empty_db 0)).2 in
  import_instruments (Some Sample.three_rows) (start Sample.empty_db 0)
    = (Ok (), w1) ∧
  ∃ w2,
    import_instruments (Some Sample.three_rows) (start (disk w1) 8)
      = (Ok (), w2) ∧
    count_rows (instruments (disk w2)) = count_rows (instruments (disk w1)) ∧
    table_data (disk w2) = table_data (disk w1).
Proof.
  split; [exact three_rows_run|].
  destruct (rerun_replaces _ _ _ _ 8 three_rows_run)
    as (w2 & Hrun & Hcount & Hdata & _).
  exists w2. exact (conj Hrun (conj Hcount Hdata)).
Defined.

(** * More about the script *)

Section MoreTransform.
Context `{PyBuiltins} `{SqlOrder}.

Lemma value_or_none_rule row key stored :
  value_or_none row key = Ok stored → text_rule (row !! key) stored.
Proof.
  unfold value_or_none, getitem, text_rule.
  destruct (row !! key) as [[|s]|]; simpl; [congruence| |done].
  case_bool_decide; simpl; congruence.
Qed.

Lemma unless_sentinel_rule row key stored :
  unless_sentinel row key = Ok stored → expiry_rule (row !! key) stored.
Proof.
  unfold unless_sentinel, getitem, expiry_rule.
  destruct (row !! key) as [[|s]|]; simpl; [congruence| |done].
  destruct (decide (s = "-1")) as [->|Hs1]; [simpl; congruence|].
  destruct (decide (s = "")) as [->|Hs2]; [simpl; congruence|].
  rewrite !bool_decide_eq_false_2 by tauto. simpl. congruence.
Qed.

(** X1: in the tuple the transformer builds, each of the seven text
    columns is null when the field is empty or the line is too short to
    have it, and the field's text otherwise (the text [-1] included);
    [expiry] is null for [-1] as well. *)
Theorem transform_text_columns row w r w' :
  make_record row w = (Ok r, w') →
  text_rule (row !! "symbol") (r_symbol r) ∧
  text_rule (row !! "brsymbol") (r_brsymbol r) ∧
  text_rule (row !! "name") (r_name r) ∧
  text_rule (row !! "exchange") (r_exchange r) ∧
  text_rule (row !! "token") (r_token r) ∧
  text_rule (row !! "instrumenttype") (r_instrumenttype r) ∧
  text_rule (row !! "brexchange") (r_brexchange r) ∧
  expiry_rule (row !! "expiry") (r_expiry r).
Proof.
  intros Hr. apply make_record_Ok in Hr
    as (E1 & E2 & E3 & E4 & E5 & E6 & _ & _ & E9 & _ & _ & _ & E11 & _).
  repeat split; first [by apply value_or_none_rule
                      |by apply unless_sentinel_rule].
Qed.

Lemma getitem_insert_ne row key key' v :
  key ≠ key' → getitem (<[key := v]> row) key' = getitem row key'.
Proof. intros Hne. unfold getitem. by rewrite lookup_insert_ne. Qed.

(** X2: the transformer reads the eleven columns and nothing else: a
    change of any other column of the row, the file's [id] among them,
    changes neither the tuple nor the failure. *)
Theorem transform_ignores_other_columns row key v w :
  key ∉ columns →
  make_record (<[key := v]> row) w = make_record row w.
Proof.
  intros Hkey.
  assert (∀ key', key' ∈ columns →
    getitem (<[key := v]> row) key' = getitem row key') as Hget.
  { intros key' Hin. apply getitem_insert_ne. by intros ->. }
  unfold make_record, value_or_none, unless_sentinel, float_or_none,
    int_or_one.
  rewrite !Hget by (unfold columns; set_solver). done.
Qed.

Lemma float_or_none_Ok_numeric row key v :
  float_or_none row key = Ok v → numeric_ok py_float true (row !! key).
Proof.
  unfold numeric_ok. destruct (row !! key) as [[|s]|] eqn:Hk; [done| |].
  - destruct (decide (s = "-1")) as [->|Hs1]; [tauto|].
    destruct (decide (s = "")) as [->|Hs2]; [tauto|].
    rewrite (float_or_none_other _ _ _ Hk Hs1 Hs2).
    destruct (py_float s); [eauto|done].
  - unfold float_or_none, getitem. by rewrite Hk.
Qed.

Lemma int_or_one_Ok_numeric row key n :
  int_or_one row key = Ok n → numeric_ok py_int false (row !! key).
Proof.
  unfold numeric_ok. destruct (row !! key) as [[|s]|] eqn:Hk.
  - unfold int_or_one, getitem. by rewrite Hk.
  - destruct (decide (s = "-1")) as [->|Hs1]; [tauto|].
    destruct (decide (s = "")) as [->|Hs2]; [tauto|].
    rewrite (int_or_one_other _ _ _ Hk Hs1 Hs2).
    destruct (py_int s); [eauto|done].
  - unfold int_or_one, getitem. by rewrite Hk.
Qed.

Lemma text_rule_present cell stored : text_rule cell stored → is_Some cell.
Proof. destruct cell; [eauto|done]. Qed.

Lemma expiry_rule_present cell stored : expiry_rule cell stored → is_Some cell.
Proof. destruct cell; [eauto|done]. Qed.

Lemma make_record_acceptable row w r w' :
  make_record row w = (Ok r, w') → acceptable row.
Proof.
  intros Hr. apply make_record_Ok in Hr
    as (E1 & E2 & E3 & E4 & E5 & E6 & E7 & E8 & E9 & E10 & _ & _ & E11 & _).
  apply value_or_none_rule, text_rule_present in E1, E2, E3, E4, E5, E9, E11.
  apply unless_sentinel_rule, expiry_rule_present in E6.
  apply float_or_none_Ok_numeric in E7, E10.
  apply int_or_one_Ok_numeric in E8.
  split; [|done].
  intros key Hkey.
  repeat (apply elem_of_cons in Hkey as [->|Hkey]; [done|]).
  by apply elem_of_nil in Hkey.
Qed.

(** X3: the transformer returns a tuple exactly for the rows that have the
    eleven columns, with [lotsize] present in the line, and with [strike],
    [lotsize] and [tick_size] each a sentinel ([-1] or empty) or text that
    parses; on every other row it raises. *)
Theorem make_record_returns_iff row w :
  (∃ r, make_record row w = (Ok r, ticked w)) ↔ acceptable row.
Proof.
  split.
  - intros [r Hr]. by eapply make_record_acceptable.
  - intros (Hkeys & Hstrike & Hlot & Htick). by apply make_record_total.
Qed.

Lemma not_acceptable_raises row w :
  ¬ acceptable row → ∃ e w', make_record row w = (Raise e, w').
Proof.
  intros Hbad. destruct (make_record row w) as [[r|e] w'] eqn:Hr; [|eauto].
  destruct Hbad. by eapply make_record_acceptable.
Qed.

(** X4: no per-row recovery for any kind of bad row: one row that lacks a
    column, has no [lotsize] field, or has a numeric field that does not
    parse, anywhere in the file, makes the process exit with status 1 and
    leaves the table empty. *)
Theorem unacceptable_row_aborts rows w :
  Exists (λ row, ¬ acceptable row) rows →
  ∃ e w', main (Some rows) w = (1, [ImportFailed e; Traceback e], w') ∧
          instruments (disk w') = [].
Proof.
  intros Hbad. unfold main.
  destruct (import_instruments_loop_raises rows w) as (e & w' & -> & Hd).
  { eapply Exists_impl; [exact Hbad|]. intros row Hrow w0.
    by apply not_acceptable_raises. }
  eauto.
Qed.
End MoreTransform.

Section MoreOutcome.
Context `{PyBuiltins} `{SqlOrder}.

(** A load that raises has committed nothing. *)
Lemma read_and_import_Raise csv_file w e w' :
  read_and_import csv_file w = (Raise e, w') →
  disk w = view w → disk w' = disk w.
Proof.
  intros Hrun Hdisk. unfold read_and_import in Hrun.
  rewrite print_bind in Hrun.
  destruct csv_file as [rows|]; [|by injection Hrun as <- <-].
  rewrite ret_bind, !print_bind in Hrun. cbn [disk view trace clock] in Hrun.
  rewrite bind_run in Hrun.
  match type of Hrun with
  | context [for_enumerate ?body 0 rows ?l0 ?w0] =>
      pose proof (loop_keeps_view (Z.of_nat (length rows)) 0 rows l0 w0)
        as [Hview Hd];
      destruct (for_enumerate body 0 rows l0 w0) as [[l|e0] w1]
  end; simpl in Hview, Hd.
  - unfold commit_final_batch in Hrun.
    assert (disk w1 = disk w) as Hw1 by (rewrite Hd, Hview; done).
    destruct (l_batch l) as [[|r batch]|]; [done| |by injection Hrun as <- <-].
    destruct (l_record l); [|by injection Hrun as <- <-].
    rewrite bind_run in Hrun. unfold executemany in Hrun.
    destruct (insert_instruments (r :: batch) (view w1)) as [[[]|e1] db].
    + by rewrite commit_bind in Hrun.
    + by injection Hrun as <- <-.
  - injection Hrun as <- <-. rewrite Hd, Hview; done.
Qed.

Lemma import_and_log_Raise csv_file w e w' :
  import_and_log csv_file w = (Raise e, w') →
  disk w' = delete_instruments (disk w).
Proof.
  unfold import_and_log. rewrite !print_bind, connect_bind.
  cbn [disk view trace clock].
  rewrite (bind_step _ _ _ _ _ (clear_instruments_run _)).
  cbn [disk view trace clock]. rewrite bind_run.
  match goal with
  | |- context [read_and_import csv_file ?w0] =>
      pose proof (read_and_import_Raise csv_file w0) as Hload;
      destruct (read_and_import csv_file w0) as [[[]|e0] w1]
  end.
  - rewrite (bind_step _ _ _ _ _ (verify_import_run _)).
    rewrite (bind_step _ _ _ _ _ (rebuild_fts_table_run _)).
    by rewrite (bind_step _ _ _ _ _ (update_refresh_log_run _ _)).
  - intros [= <- <-]. by rewrite (Hload e0 w1).
Qed.

(** X5: a run that raises leaves the file in one of two states.  Either
    the import itself raised: then the file holds what the committed DELETE
    left, an empty [instruments] with the index and the log as they were
    before the run; nothing of what the loop read or [executemany]
    inserted is committed.  Or the import was completed and logged and the
    report raised [TypeError]: then the file is as the import left it,
    with the last batch of the file in [instruments]. *)
Theorem failed_run_leaves csv_file w e w' :
  import_instruments csv_file w = (Raise e, w') →
  (import_and_log csv_file w = (Raise e, w') ∧
   disk w' = delete_instruments (disk w) ∧
   instruments (disk w') = []) ∨
  (e = TypeError ∧
   ∃ counts w1 rows rs,
     import_and_log csv_file w = (Ok counts, w1) ∧
     disk w' = disk w1 ∧
     csv_file = Some rows ∧ Forall2 transforms rows rs ∧
     instruments (disk w') =
       numbered (next_rowid (delete_instruments (disk w)))
         (bound <$> last_batch rs)).
Proof.
  unfold import_instruments. rewrite bind_run.
  destruct (import_and_log csv_file w) as [[counts|e0] w1] eqn:Hlog.
  - intros Hreport. right.
    destruct (report_and_close_checks counts.1 counts.2 w1)
      as (w2 & Hdisk & [[_ Hraise]|[_ Hok]]); [|congruence].
    rewrite Hreport in Hraise. injection Hraise as -> ->.
    split; [done|]. pose proof Hlog as Hlog'.
    apply import_and_log_Ok in Hlog'
      as (rows & rs & db & pre & -> & _ & Hrs & Hdb & _ & _ & Hw1).
    apply insert_instruments_Ok in Hdb as (_ & Hrows & _).
    exists counts, w1, rows, rs. split; [done|]. split; [done|].
    split; [done|]. split; [done|].
    by rewrite Hdisk, Hw1; cbn [disk]; rewrite logged_instruments.
  - intros [= <- <-]. left. split; [done|].
    pose proof (import_and_log_Raise _ _ _ _ Hlog) as Hdisk.
    split; [done|]. by rewrite Hdisk.
Qed.


Lemma last_batch_small (rs : list record) :
  (length rs ≤ 1000)%nat → last_batch rs = rs.
Proof.
  intros Hlen. unfold last_batch. by rewrite batch_start_small.
Qed.

(** X7: after a run that returns on a file of [N] rows, [instruments]
    holds the tuples of the last batch only, as SQLite binds them, the
    rows from index [1000 * ((N - 1) div 1000)] on, in file order under
    consecutive rowids: [(N - 1) mod 1000 + 1] rows.  That is the whole
    file when [N] is at most 1000. *)
Theorem import_keeps_last_batch rows w w' :
  import_instruments (Some rows) w = (Ok (), w') →
  ∃ rs,
    Forall2 transforms rows rs ∧
    instruments (disk w') =
      numbered (next_rowid (delete_instruments (disk w)))
        (bound <$> last_batch rs) ∧
    count_rows (instruments (disk w')) =
      (Z.of_nat (length rows) - 1) `mod` batch_size + 1 ∧
    ((length rows ≤ 1000)%nat → last_batch rs = rs).
Proof.
  intros Hrun. pose proof (import_instruments_count _ _ _ Hrun) as Hcount.
  apply import_instruments_Ok in Hrun
    as (rows' & rs & db & pre & post & [= <-] & Hne & Hrs & Hdb & Hdisk & _).
  apply insert_instruments_Ok in Hdb as (_ & Hrows & _).
  exists rs. split; [done|]. split; [by rewrite Hdisk, logged_instruments|].
  split; [done|]. intros Hlen. apply last_batch_small.
  by rewrite <-(Forall2_length _ _ _ Hrs).
Qed.

(** X8: the report only reads.  Whether it returns or raises, the
    database file is as it was, and every event it adds to the trace is a
    printed line or a SELECT: no INSERT, no DELETE, no commit. *)
Theorem report_reads_only count fts_count w :
  disk (report_and_close count fts_count w).2 = disk w ∧
  ∃ evs,
    trace (report_and_close count fts_count w).2 = trace w ++ evs ∧
    Forall (λ ev, reads_only ev = true) evs.
Proof.
  split.
  - apply (report_and_close_frame count fts_count w).
  - apply (report_and_close_emits count fts_count w).
Qed.

(** X9: once the import is done and logged, the process exits with status
    0 exactly when the report finds no null to format, and the file is
    then as the import left it. *)
Theorem exit_0_iff_nothing_null csv_file w counts w1 :
  import_and_log csv_file w = (Ok counts, w1) →
  ((main csv_file w).1 = (0, []) ↔ ¬ report_null (view w1)) ∧
  disk (main csv_file w).2 = disk w1.
Proof.
  intros Hlog. unfold main, import_instruments.
  rewrite (bind_step _ _ _ _ _ Hlog).
  destruct (report_and_close_checks counts.1 counts.2 w1)
    as (w2 & Hdisk & [[Hnull ->]|[Hgood ->]]); simpl.
  - split; [|done]. split; [done|tauto].
  - split; [|done]. split; [done|tauto].
Qed.
End MoreOutcome.

Section MoreRuns.
Context `{PyBuiltins} `{SqlOrder}.

Lemma transforms_acceptable row r : transforms row r → acceptable row.
Proof. intros [w Hr]. by eapply make_record_acceptable. Qed.

Lemma acceptable_transforms row : acceptable row → ∃ r, transforms row r.
Proof.
  intros Hrow. pose (w := start {| instruments := []; instruments_seq := None;
    instruments_fts := []; instruments_refresh_log := [] |} 0).
  destruct Hrow as (Hkeys & Hstrike & Hlot & Htick).
  destruct (make_record_total row w Hkeys Hstrike Hlot Htick) as [r Hr].
  exists r. by exists w.
Qed.

Lemma transforms_lotsize row r :
  transforms row r → int_or_one row "lotsize" = Ok (r_lotsize r).
Proof. intros [w Hr]. by apply make_record_Ok in Hr as (_&_&_&_&_&_&_&?&_). Qed.

Lemma Forall2_transforms_fits rows rs :
  Forall2 transforms rows rs →
  Forall lotsize_fits rows ↔
  Forall (λ r, fits_int64 (r_lotsize r) = true) rs.
Proof.
  induction 1 as [|row r rows rs Hr Hrs IH]; [done|].
  rewrite !Forall_cons, IH. apply transforms_lotsize in Hr.
  unfold lotsize_fits. rewrite Hr. split; intros [Hfit ?]; split; try done.
  - by apply Hfit.
  - by intros n [= <-].
Qed.

(** X10: the import, up to and including the refresh log, returns exactly
    when the file exists and has at least one row, every row is one the
    transformer accepts, and the [lotsize] of each row of the last batch
    fits in 64 bits.  (Rows before the last batch are never bound to the
    INSERT, so their [lotsize] need not fit.) *)
Theorem import_and_log_returns_iff rows w :
  (∃ counts w1, import_and_log (Some rows) w = (Ok counts, w1)) ↔
  rows ≠ [] ∧ Forall acceptable rows ∧
  Forall lotsize_fits (drop (batch_start (Z.of_nat (length rows))) rows).
Proof.
  split.
  - intros (counts & w1 & Hlog). apply import_and_log_Ok in Hlog
      as (rows' & rs & db & pre & [= <-] & Hne & Hrs & Hdb & _).
    apply insert_instruments_Ok in Hdb as (Hfits & _).
    split; [done|]. split.
    + eapply Forall_impl; [by eapply Forall2_transforms_each|].
      intros row [r Hr]. by eapply transforms_acceptable.
    + unfold last_batch in Hfits.
      rewrite <-(Forall2_length _ _ _ Hrs) in Hfits.
      by eapply Forall2_transforms_fits; [apply Forall2_drop|].
  - intros (Hne & Hrows & Hfits). apply import_and_log_total.
    apply read_and_import_total; [done| |].
    + eapply Forall_impl; [exact Hrows|]. apply acceptable_transforms.
    + intros rs Hrs. unfold last_batch.
      rewrite <-(Forall2_length _ _ _ Hrs).
      by eapply Forall2_transforms_fits; [apply Forall2_drop|].
Qed.
End MoreRuns.

Section MoreTrace.
Context `{PyBuiltins} `{SqlOrder}.

(** One iteration that returns adds to the trace the events of its index
    and nothing else. *)
Lemma loop_body_trace total i row l w l' w' :
  loop_body total i row l w = (Ok l', w') →
  l_inserted l = i →
  trace w' = trace w ++ loop_events total i 1.
Proof.
  unfold loop_body. intros Hrun Hins.
  apply bind_Ok in Hrun as (l1 & w1 & Hhead & Hrun).
  apply bind_Ok in Hrun as (r & w2 & Hrec & Hrun).
  apply bind_Ok in Hrun as (b & w3 & Hb & Hrun).
  injection Hrun as <- <-.
  assert (w3 = w2) as ->.
  { destruct (l_batch l1); [|discriminate]. by injection Hb as <- <-. }
  apply make_record_Ok in Hrec as (_&_&_&_&_&_&_&_&_&_&_&_&_& ->).
  cbn [trace ticked]. simpl loop_events. rewrite app_nil_r.
  repeat case_bool_decide; try discriminate;
    rewrite ?commit_bind, ?print_bind, ?ret_bind in Hhead;
    injection Hhead as <- <-; cbn [trace]; rewrite ?Hins, <-?app_assoc;
    by rewrite ?app_nil_r.
Qed.

Lemma loop_trace total rows : ∀ done l w l' w',
  for_enumerate (loop_body total) (Z.of_nat (length done)) rows l w
    = (Ok l', w') →
  loop_state done l →
  trace w' =
    trace w ++ loop_events total (Z.of_nat (length done)) (length rows).
Proof.
  induction rows as [|row rows IH]; intros done l w l' w' Hrun Hst.
  - injection Hrun as <- <-. simpl. by rewrite app_nil_r.
  - simpl in Hrun. apply bind_Ok in Hrun as (l1 & w1 & Hbody & Hrun).
    pose proof (loop_body_trace _ _ _ _ _ _ _ Hbody (proj1 Hst)) as Htr.
    apply loop_body_Ok in Hbody as (r & Hr & Hrec & Hins & _ & Hcase).
    pose proof (loop_state_step _ _ _ _ Hst Hrec Hins Hcase) as Hst1.
    replace (Z.of_nat (length done) + 1) with (Z.of_nat (length (done ++ [r])))
      in Hrun by (rewrite length_app; simpl; lia).
    rewrite (IH _ _ _ _ _ Hrun Hst1), Htr.
    replace (Z.of_nat (length (done ++ [r]))) with (Z.of_nat (length done) + 1)
      by (rewrite length_app; simpl; lia).
    simpl loop_events. rewrite app_nil_r, <-!app_assoc. done.
Qed.

Lemma read_and_import_trace rows w w' :
  read_and_import (Some rows) w = (Ok (), w') →
  ∃ rs, Forall2 transforms rows rs ∧
    view w' = disk w' ∧
    trace w' =
      trace w ++
      [Print (ReadingCsv CSV_FILE);
       Print (TotalRecords (Z.of_nat (length rows))); Print (Text "")] ++
      loop_events (Z.of_nat (length rows)) 0 (length rows) ++
      [Execute (InsertInstruments (last_batch rs)); Commit;
       Print (CommittedFinalBatch (Z.of_nat (length rows)))].
Proof.
  intros Hrun. unfold read_and_import in Hrun.
  rewrite print_bind, ret_bind, !print_bind in Hrun.
  cbn [disk view trace clock] in Hrun.
  apply bind_Ok in Hrun as (l & w1 & Hloop & Hfinal).
  pose proof (loop_trace _ _ [] _ _ _ _ Hloop) as Htrace.
  apply (loop_Ok _ _ []) in Hloop as (rs & Hrs & Hst & _); [|by split].
  specialize (Htrace ltac:(by split)).
  simpl in Hst, Htrace.
  apply (commit_final_batch_Ok rs) in Hfinal as (_ & db & _ & ->); [|done].
  exists rs. split; [done|]. split; [done|]. cbn [trace].
  rewrite Htrace, (Forall2_length _ _ _ Hrs), <-!app_assoc. done.
Qed.

(** X11: what an import that returns prints, executes and commits, in
    order: the banner, the DELETE and its commit, the count of the file's
    rows; in the loop nothing but, at every multiple of 1000, a commit of
    an empty transaction with a line that reports the rows read so far as
    committed, and the progress line; then one INSERT of the last batch and
    its commit, the COUNT, the rebuild of the index and its commit, the row
    added to the log and its commit. *)
Theorem import_and_log_trace rows w counts w1 :
  import_and_log (Some rows) w = (Ok counts, w1) →
  ∃ rs started completed,
    Forall2 transforms rows rs ∧
    trace w1 =
      trace w ++
      [Print (Text (rule "="));
       Print (Text "Starting instruments import from CSV...");
       Print (Text (rule "=")); Print (Text "");
       Print (Text "Clearing existing instruments...");
       Execute DeleteInstruments; Commit;
       Print (Text ("✓ Existing instruments cleared" +:+ nl));
       Print (ReadingCsv CSV_FILE);
       Print (TotalRecords (Z.of_nat (length rows))); Print (Text "")] ++
      loop_events (Z.of_nat (length rows)) 0 (length rows) ++
      [Execute (InsertInstruments (last_batch rs)); Commit;
       Print (CommittedFinalBatch (Z.of_nat (length rows)));
       Execute CountInstruments; Print (TotalInDatabase counts.1);
       Print (Text "Rebuilding FTS table...");
       Execute DeleteFts; Execute RebuildFts; Commit; Execute CountFts;
       Print (FtsRecords counts.2);
       Execute (InsertRefreshLog "CSV_UPLOAD" counts.1 started completed);
       Commit; Print (Text ("✓ Refresh log updated" +:+ nl))].
Proof.
  unfold import_and_log. rewrite !print_bind, connect_bind.
  cbn [disk view trace clock].
  rewrite (bind_step _ _ _ _ _ (clear_instruments_run _)).
  cbn [disk view trace clock].
  intros Hrun. apply bind_Ok in Hrun as ([] & w2 & Hload & Hrun).
  apply read_and_import_trace in Hload as (rs & Hrs & Hview & Htrace).
  cbn [disk view trace clock] in Htrace.
  rewrite (bind_step _ _ _ _ _ (verify_import_run _)) in Hrun.
  cbn [disk view trace clock] in Hrun.
  rewrite (bind_step _ _ _ _ _ (rebuild_fts_table_run _)) in Hrun.
  cbn [disk view trace clock] in Hrun.
  rewrite (bind_step _ _ _ _ _ (update_refresh_log_run _ _)) in Hrun.
  cbv zeta in Hrun. cbn [disk view trace clock] in Hrun.
  injection Hrun as <- <-.
  eexists rs, _, _. split; [done|]. cbn [trace fst snd].
  rewrite Htrace, <-!app_assoc. simpl. reflexivity.
Qed.
End MoreTrace.

Section MoreRerun.
Context `{PyBuiltins} `{SqlOrder}.

Lemma fts_of_table_data db :
  (fts_projection db).*2 = (λ r, (r_symbol r, r_name r)) <$> table_data db.
Proof.
  unfold fts_projection, table_data.
  rewrite <-!list_fmap_compose. by apply list_fmap_ext.
Qed.

Lemma import_instruments_fts csv_file w w' :
  import_instruments csv_file w = (Ok (), w') →
  instruments_fts (disk w') = fts_projection (disk w').
Proof.
  intros Hrun. apply import_instruments_Ok in Hrun
    as (rows & rs & db & pre & post & _ & _ & _ & _ & Hdisk & _).
  by rewrite Hdisk.
Qed.

(** X12: what a run leaves in [instruments] and in the search index is
    fixed by the file alone.  If the import returns from one database it
    returns from any other, at any time, whatever rows, index entries or
    remains of a failed run that database holds, and it leaves the same
    data in the table and the same entries in the index; the log of the
    database it ran on grows by one row. *)
Theorem import_independent_of_database csv_file db1 t1 w1 db2 t2 :
  import_instruments csv_file (start db1 t1) = (Ok (), w1) →
  ∃ w2,
    import_instruments csv_file (start db2 t2) = (Ok (), w2) ∧
    table_data (disk w2) = table_data (disk w1) ∧
    (instruments_fts (disk w2)).*2 = (instruments_fts (disk w1)).*2 ∧
    ∃ started completed,
      instruments_refresh_log (disk w2) =
        instruments_refresh_log db2 ++
          [log_entry (count_rows (instruments (disk w2))) started completed].
Proof.
  intros Hrun1.
  pose proof (import_instruments_fts _ _ _ Hrun1) as Hfts1.
  apply import_instruments_Ok_report in Hrun1
    as (rows & rs & first & -> & Hne & Hrs & Hfits & Htable1 & Hgood1).
  destruct (import_and_log_total rows (start db2 t2))
    as (counts & wl & Hlog).
  { apply read_and_import_total; [done| |].
    - by eapply Forall2_transforms_each.
    - intros rs' Hrs'.
      pose proof (Forall2_transforms_untimed _ _ _ Hrs Hrs') as Hsame.
      assert (untimed <$> last_batch rs' = untimed <$> last_batch rs) as Hb
        by (by rewrite !last_batch_fmap, Hsame).
      by apply (fits_untimed (last_batch rs)). }
  pose proof Hlog as Hlog'.
  apply import_and_log_Ok in Hlog'
    as (rows' & rs' & db' & pre & [= <-] & _ & Hrs' & Hdb' & _ & _ & Hwl).
  apply insert_instruments_Ok in Hdb' as (_ & Hrows' & _).
  simpl in Hrows'.
  assert (instruments (view wl)
          = numbered (next_rowid (delete_instruments db2))
              (bound <$> last_batch rs'))
    as Htable2
    by (by rewrite Hwl; cbn [view]; rewrite logged_instruments).
  assert (table_data (view wl) = table_data (disk w1)) as Hdata.
  { rewrite (table_data_numbered _ _ _ Htable1),
      (table_data_numbered _ _ _ Htable2).
    apply untimed_bound_fmap. rewrite !last_batch_fmap.
    f_equal. by apply (Forall2_transforms_untimed rows). }
  destruct (report_and_close_checks counts.1 counts.2 wl)
    as (w2 & Hdisk & [[Hnull _]|[_ Hreport]]).
  { destruct Hgood1. by apply (report_null_data (view wl)). }
  assert (disk wl = view wl) as Hview by (by rewrite Hwl).
  assert (import_instruments (Some rows) (start db2 t2) = (Ok (), w2))
    as Hrun2.
  { unfold import_instruments. by rewrite (bind_step _ _ _ _ _ Hlog). }
  destruct (import_instruments_log _ _ _ Hrun2) as (s2 & c2 & Hlog2).
  assert (table_data (disk w2) = table_data (disk w1)) as Hdata'
    by (by unfold table_data in *; rewrite Hdisk, Hview).
  exists w2. split; [done|]. split; [done|].
  split; [|by eauto].
  by rewrite (import_instruments_fts _ _ _ Hrun2), Hfts1, !fts_of_table_data,
    Hdata'.
Qed.
End MoreRerun.

Section MoreReport.
Context `{PyBuiltins} `{SqlOrder} `{!SqlOrderLaws}.

Lemma numbered_elem_of first batch r :
  r ∈ batch → ∃ id, (id, r) ∈ numbered first batch.
Proof.
  intros Hr. rewrite <-(numbered_records first batch) in Hr.
  apply list_elem_of_fmap in Hr as ([id r'] & -> & Hin). eauto.
Qed.

(** X13: in a file of at most 1000 rows, one row with an empty
    [instrumenttype] is enough to end the process with status 1: the
    breakdown by type formats the null key of its group and raises
    [TypeError], after the data is imported and the log says
    [completed]. *)
Theorem empty_instrumenttype_exits_1 rows w counts w1 row :
  (length rows ≤ 1000)%nat →
  import_and_log (Some rows) w = (Ok counts, w1) →
  row ∈ rows → row !! "instrumenttype" = Some (PStr "") →
  ∃ w', main (Some rows) w
          = (1, [ImportFailed TypeError; Traceback TypeError], w') ∧
        disk w' = disk w1 ∧
        lg_status <$> last (instruments_refresh_log (disk w'))
          = Some "completed".
Proof.
  intros Hlen Hlog Hrow Hcell.
  pose proof Hlog as Hlog'.
  apply import_and_log_Ok in Hlog'
    as (rows' & rs & db & pre & [= <-] & _ & Hrs & Hdb & _ & _ & Hwl).
  apply insert_instruments_Ok in Hdb as (_ & Hrows & _). simpl in Hrows.
  rewrite last_batch_small in Hrows
    by (by rewrite <-(Forall2_length _ _ _ Hrs)).
  apply list_elem_of_lookup in Hrow as [k Hk].
  destruct (Forall2_lookup_l _ _ _ _ _ Hrs Hk) as (r & Hr & [w0 Htr]).
  apply make_record_Ok in Htr as (_&_&_&_&_&_&_&_& Htype &_).
  apply value_or_none_rule in Htype. rewrite Hcell in Htype. simpl in Htype.
  destruct (numbered_elem_of (next_rowid (delete_instruments (disk w)))
              (bound <$> rs) (bound r))
    as [id Hin];
    [by eapply list_elem_of_fmap_2, list_elem_of_lookup_2|].
  assert (type_null (view w1)) as Hnull.
  { apply type_null_iff. exists (id, bound r). split; [|done].
    rewrite Hwl. cbn [view]. by rewrite logged_instruments, Hrows. }
  destruct (report_and_close_checks counts.1 counts.2 w1)
    as (w' & Hdisk & [[_ Hrun]|[Hgood _]]).
  - exists w'. unfold main, import_instruments.
    rewrite (bind_step _ _ _ _ _ Hlog), Hrun. split; [done|]. split; [done|].
    rewrite Hdisk, Hwl. cbn [disk]. unfold logged, insert_refresh_log.
    cbn [instruments_refresh_log]. by rewrite last_snoc.
  - destruct Hgood. right. by right.
Qed.
End MoreReport.

(** ** On the sample files *)

Lemma three_rows_logged :
  import_and_log (Some Sample.three_rows) (start Sample.empty_db 0) =
    (Ok (3, 3),
     (import_and_log (Some Sample.three_rows) (start Sample.empty_db 0)).2).
Proof.
  assert ((import_and_log (Some Sample.three_rows)
             (start Sample.empty_db 0)).1 = Ok (3, 3)) as Hok
    by (vm_compute; reflexivity).
  rewrite <-Hok. apply surjective_pairing.
Qed.

Lemma untyped_row_logged :
  import_and_log (Some [Sample.nifty_row; Sample.untyped_row])
    (start Sample.empty_db 0) =
    (Ok (2, 2),
     (import_and_log (Some [Sample.nifty_row; Sample.untyped_row])
        (start Sample.empty_db 0)).2).
Proof.
  assert ((import_and_log (Some [Sample.nifty_row; Sample.untyped_row])
             (start Sample.empty_db 0)).1 = Ok (2, 2)) as Hok
    by (vm_compute; reflexivity).
  rewrite <-Hok. apply surjective_pairing.
Qed.

Lemma missing_file_run :
  import_instruments None (start Sample.used_db 0) =
    (Raise FileNotFoundError,
     (import_instruments None (start Sample.used_db 0)).2).
Proof.
  assert ((import_instruments None (start Sample.used_db 0)).1
          = Raise FileNotFoundError) as Hok by (vm_compute; reflexivity).
  rewrite <-Hok. apply surjective_pairing.
Qed.

Lemma transform_text_columns_witness :
  make_record Sample.nifty_row (start Sample.empty_db 0)
    = (Ok (Sample.nifty "T0" "T1"), ticked (start Sample.empty_db 0)) ∧
  text_rule (Sample.nifty_row !! "symbol") (Some "NIFTY") ∧
  expiry_rule (Sample.nifty_row !! "expiry") None.
Proof.
  assert (make_record Sample.nifty_row (start Sample.empty_db 0)
          = (Ok (Sample.nifty "T0" "T1"), ticked (start Sample.empty_db 0)))
    as Hrun by reflexivity.
  split; [exact Hrun|].
  destruct (transform_text_columns _ _ _ _ Hrun)
    as (Hsymbol & _ & _ & _ & _ & _ & _ & Hexpiry).
  exact (conj Hsymbol Hexpiry).
Defined.

Lemma transform_ignores_other_columns_witness :
  ("id" ∉ columns) ∧
  make_record (<["id" := PStr "7"]> Sample.nifty_row)
    (start Sample.empty_db 0)
  = make_record Sample.nifty_row (start Sample.empty_db 0).
Proof.
  assert ("id" ∉ columns) as Hid by (by apply (bool_decide_unpack _)).
  split; [exact Hid|].
  exact (transform_ignores_other_columns _ "id" (PStr "7") _ Hid).
Defined.

Lemma unacceptable_row_aborts_witness :
  let rows := [Sample.nifty_row; delete "token" Sample.option_row] in
  Exists (λ row, ¬ acceptable row) rows ∧
  ∃ e w', main (Some rows) (start Sample.empty_db 0)
            = (1, [ImportFailed e; Traceback e], w') ∧
          instruments (disk w') = [].
Proof.
  intros rows.
  assert (Exists (λ row, ¬ acceptable row) rows) as Hbad.
  { right. left. intros [Hkeys _].
    destruct (Hkeys "token") as [v Hv]; [set_solver|].
    by rewrite lookup_delete_eq in Hv. }
  split; [exact Hbad|].
  exact (unacceptable_row_aborts rows _ Hbad).
Defined.

Lemma untyped_row_run :
  import_instruments (Some [Sample.nifty_row; Sample.untyped_row])
    (start Sample.empty_db 0) =
    (Raise TypeError,
     (import_instruments (Some [Sample.nifty_row; Sample.untyped_row])
        (start Sample.empty_db 0)).2).
Proof.
  assert ((import_instruments (Some [Sample.nifty_row; Sample.untyped_row])
             (start Sample.empty_db 0)).1 = Raise TypeError) as Hok
    by (vm_compute; reflexivity).
  rewrite <-Hok. apply surjective_pairing.
Qed.

Lemma failed_run_leaves_witness :
  let missing := import_instruments None (start Sample.used_db 0) in
  let rows := [Sample.nifty_row; Sample.untyped_row] in
  let untyped := import_instruments (Some rows) (start Sample.empty_db 0) in
  (missing.1 = Raise FileNotFoundError ∧
   count_rows (instruments (disk missing.2)) = 0) ∧
  (untyped.1 = Raise TypeError ∧
   count_rows (instruments (disk untyped.2)) = 2).
Proof.
  intros missing rows untyped. split.
  - split; [exact (f_equal fst missing_file_run)|].
    destruct (failed_run_leaves _ _ _ _ missing_file_run)
      as [(_ & _ & Hempty)|[Hexn _]]; [|discriminate Hexn].
    fold missing in Hempty. rewrite Hempty. reflexivity.
  - split; [exact (f_equal fst untyped_row_run)|].
    destruct (failed_run_leaves _ _ _ _ untyped_row_run)
      as [(Hraise & _)|(_ & counts & w1 & rows' & rs & _ & _ & Hrows & Hrs
                        & Htable)].
    + rewrite untyped_row_logged in Hraise. discriminate Hraise.
    + injection Hrows as <-. fold rows untyped in Htable. rewrite Htable.
      unfold count_rows.
      rewrite numbered_length, length_fmap, last_batch_small,
        <-(Forall2_length _ _ _ Hrs);
        [reflexivity|rewrite <-(Forall2_length _ _ _ Hrs); simpl; lia].
Defined.

Lemma import_keeps_last_batch_witness :
  let w := start Sample.empty_db 0 in
  let out := import_instruments (Some Sample.three_rows) w in
  out.1 = Ok () ∧
  ∃ rs,
    Forall2 transforms Sample.three_rows rs ∧
    instruments (disk out.2) =
      numbered (next_rowid (delete_instruments (disk w)))
        (bound <$> last_batch rs) ∧
    count_rows (instruments (disk out.2)) =
      (Z.of_nat (length Sample.three_rows) - 1) `mod` batch_size + 1 ∧
    ((length Sample.three_rows ≤ 1000)%nat → last_batch rs = rs).
Proof.
  split.
  - exact (f_equal fst three_rows_run).
  - exact (import_keeps_last_batch _ _ _ three_rows_run).
Defined.

Lemma exit_0_iff_nothing_null_witness :
  let w := start Sample.empty_db 0 in
  let w1 := (import_and_log (Some Sample.three_rows) w).2 in
  import_and_log (Some Sample.three_rows) w = (Ok (3, 3), w1) ∧
  ((main (Some Sample.three_rows) w).1 = (0, []) ↔ ¬ report_null (view w1)) ∧
  disk (main (Some Sample.three_rows) w).2 = disk w1.
Proof.
  split.
  - exact three_rows_logged.
  - exact (exit_0_iff_nothing_null _ _ _ _ three_rows_logged).
Defined.

Lemma import_and_log_trace_witness :
  let w := start Sample.empty_db 0 in
  let w1 := (import_and_log (Some Sample.three_rows) w).2 in
  import_and_log (Some Sample.three_rows) w = (Ok (3, 3), w1) ∧
  ∃ rs, Forall2 transforms Sample.three_rows rs ∧
        Execute (InsertInstruments (last_batch rs)) ∈ trace w1.
Proof.
  split; [exact three_rows_logged|].
  destruct (import_and_log_trace _ _ _ _ three_rows_logged)
    as (rs & started & completed & Hrs & Htrace).
  exists rs. split; [exact Hrs|]. rewrite Htrace.
  apply elem_of_app; right. apply elem_of_app; right.
  apply elem_of_app; right. left.
Defined.

Lemma import_independent_of_database_witness :
  let w1 :=
    (import_instruments (Some Sample.three_rows)
       (start Sample.empty_db 0)).2 in
  import_instruments (Some Sample.three_rows) (start Sample.empty_db 0)
    = (Ok (), w1) ∧
  ∃ w2,
    import_instruments (Some Sample.three_rows) (start Sample.used_db 9)
      = (Ok (), w2) ∧
    table_data (disk w2) = table_data (disk w1) ∧
    (instruments_fts (disk w2)).*2 = (instruments_fts (disk w1)).*2.
Proof.
  split; [exact three_rows_run|].
  destruct (import_independent_of_database _ _ _ _ Sample.used_db 9
              three_rows_run) as (w2 & Hrun & Hdata & Hfts & _).
  exists w2. exact (conj Hrun (conj Hdata Hfts)).
Defined.

Lemma empty_instrumenttype_exits_1_witness :
  let rows := [Sample.nifty_row; Sample.untyped_row] in
  let w := start Sample.empty_db 0 in
  let w1 := (import_and_log (Some rows) w).2 in
  (length rows ≤ 1000)%nat ∧
  import_and_log (Some rows) w = (Ok (2, 2), w1) ∧
  Sample.untyped_row ∈ rows ∧
  Sample.untyped_row !! "instrumenttype" = Some (PStr "") ∧
  ∃ w', main (Some rows) w
          = (1, [ImportFailed TypeError; Traceback TypeError], w') ∧
        disk w' = disk w1 ∧
        lg_status <$> last (instruments_refresh_log (disk w'))
          = Some "completed".
Proof.
  intros rows w w1.
  assert ((length rows ≤ 1000)%nat) as Hlen by (simpl; lia).
  assert (Sample.untyped_row ∈ rows) as Hin by (right; left).
  assert (Sample.untyped_row !! "instrumenttype" = Some (PStr "")) as Hcell
    by reflexivity.
  split; [exact Hlen|]. split; [exact untyped_row_logged|].
  split; [exact Hin|]. split; [exact Hcell|].
  exact (empty_instrumenttype_exits_1 rows w _ _ _ Hlen untyped_row_logged
           Hin Hcell).
Defined.

Lemma nan_rows_logged :
  import_and_log (Some [Sample.nifty_row; Sample.nan_row])
    (start Sample.empty_db 0) =
    (Ok (2, 2),
     (import_and_log (Some [Sample.nifty_row; Sample.nan_row])
        (start Sample.empty_db 0)).2).
Proof.
  assert ((import_and_log (Some [Sample.nifty_row; Sample.nan_row])
             (start Sample.empty_db 0)).1 = Ok (2, 2)) as Hok
    by (vm_compute; reflexivity).
  rewrite <-Hok. apply surjective_pairing.
Qed.

Lemma stored_strike_tick_size_witness :
  let rows := [Sample.nifty_row; Sample.nan_row] in
  let w := start Sample.empty_db 0 in
  import_and_log (Some rows) w
    = (Ok (2, 2), (import_and_log (Some rows) w).2) ∧
  Forall2 (λ row entry,
      (∀ s, row !! "strike" = Some (PStr s) →
            stored_float_rule s (r_strike entry.2)) ∧
      (∀ s, row !! "tick_size" = Some (PStr s) →
            stored_float_rule s (r_tick_size entry.2)))
    rows (instruments (disk (main (Some rows) w).2)).
Proof.
  intros rows w. split; [exact nan_rows_logged|].
  destruct (stored_strike_tick_size rows w _ _ nan_rows_logged)
    as [Hall Hrows].
  rewrite Hrows in Hall by (simpl; lia). exact Hall.
Defined.

(** C6 as stated fails for the text [nan]: [float] parses it, to the NaN;
    the run returns and the row is stored with a null [strike], not with
    the float the field parses to. *)
Lemma nan_strike_stored_null :
  let out := main (Some [Sample.nan_row]) (start Sample.empty_db 0) in
  out.1 = (0, []) ∧
  Sample.nan_row !! "strike" = Some (PStr "nan") ∧
  py_float "nan" = Some Sample.NaN ∧
  (λ entry, r_strike entry.2) <$> instruments (disk out.2) = [None] ∧
  ¬ float_rule "nan" None.
Proof.
  split; [vm_compute; reflexivity|]. split; [reflexivity|].
  split; [reflexivity|]. split; [vm_compute; reflexivity|].
  intros [_ Hother]. by destruct Hother as (x & _ & Hx).
Qed.

Lemma stored_lotsize_witness :
  let rows := Sample.three_rows in
  let w := start Sample.empty_db 0 in
  import_and_log (Some rows) w
    = (Ok (3, 3), (import_and_log (Some rows) w).2) ∧
  Forall2 (λ row entry,
      ∀ s, row !! "lotsize" = Some (PStr s) →
           lotsize_rule s (r_lotsize entry.2) ∧
           fits_int64 (r_lotsize entry.2) = true)
    rows (instruments (disk (main (Some rows) w).2)).
Proof.
  intros rows w. split; [exact three_rows_logged|].
  destruct (stored_lotsize rows w _ _ three_rows_logged) as [Hall Hrows].
  rewrite Hrows in Hall by (simpl; lia). exact Hall.
Defined.

(** C7 as stated fails for a lot size of 2^63: [int] parses the field
    and the tuple holds the integer, but SQLite cannot store it; the
    INSERT raises [OverflowError], the process exits with status 1 and no
    row is stored. *)
Lemma lotsize_overflow_stores_nothing :
  let w := start Sample.empty_db 0 in
  let out := main (Some [Sample.huge_lot_row]) w in
  Sample.huge_lot_row !! "lotsize" = Some (PStr "9223372036854775808") ∧
  py_int "9223372036854775808" = Some (2 ^ 63) ∧
  r_lotsize <$> (make_record Sample.huge_lot_row w).1 = Ok (2 ^ 63) ∧
  out.1 = (1, [ImportFailed OverflowError; Traceback OverflowError]) ∧
  count_rows (instruments (disk out.2)) = 0.
Proof.
  split; [reflexivity|]. split; [vm_compute; reflexivity|].
  split; [vm_compute; reflexivity|]. split; vm_compute; reflexivity.
Qed.
